(** * Chart viewport: pan, zoom, batching and keyboard navigation

    A shallow embedding of [src/components/shared/chart/Viewport.js]
    (the [ChartViewport] component created by [withChartViewport]).

    Numbers.  The component computes with JavaScript numbers, which are
    IEEE 754 binary64 floating-point numbers.  The file has two readings of
    the arithmetic.

    The exact reading embeds numbers as rationals [Q]: [+ - *] are the
    field operations, [Math.min]/[Math.max] are [Qmin]/[Qmax], [<], [>],
    [>=] are [Qlt_bool], [Qle_bool], and [===] between numbers is
    [Qeq_bool].  Equality of numbers in statements is [==] (equality of
    rationals).  This reading has no rounding, no [NaN] and no infinity;
    its quotient [a / b] agrees with the code only when [b] is not zero.
    A statement about it says what the formulas of the code compute
    exactly; it transfers to the code as it stands when it only follows the
    branches of the code and names the expressions the code evaluates, and
    up to rounding otherwise.

    The module [Double] embeds the same formulas on the primitive binary64
    numbers of the kernel, with the rounding, the [NaN] and the infinities
    of the code.  It decides what the code computes at a given input.
    [Math.pow] is a parameter of the keyboard section. *)

From Stdlib Require Import QArith Qminmax Qabs Lqa Bool List String Lia.
From Stdlib Require Import PeanoNat.
From Stdlib Require Floats.
Import ListNotations.

Local Open Scope Q_scope.

(** ** Data model *)

(** [StartEndRange]: [{ start, end }] in milliseconds. *)
Record StartEndRange : Type := mkRange {
  range_start : Q;
  range_end : Q
}.

(** [PreviewSelection]: the union
    [{ hasSelection: false, isModifying: false }]
    | [{ hasSelection: true, isModifying, selectionStart, selectionEnd }]. *)
Inductive PreviewSelection : Type :=
| NoSelection (isModifying : bool)
| Selection (isModifying : bool) (selectionStart selectionEnd : Q).

Definition hasSelection (s : PreviewSelection) : bool :=
  match s with
  | NoSelection _ => false
  | Selection _ _ _ => true
  end.

(** [HorizontalViewport]: both bounds are fractions of the committed range. *)
Record HorizontalViewport : Type := mkHV {
  viewportLeft : Q;
  viewportRight : Q
}.

(** Equality of viewports as pairs of numbers. *)
Definition hv_eq (a b : HorizontalViewport) : Prop :=
  viewportLeft a == viewportLeft b /\ viewportRight a == viewportRight b.

(** The width [viewportRight - viewportLeft]. *)
Definition viewportLength (hv : HorizontalViewport) : Q :=
  viewportRight hv - viewportLeft hv.

(** The invariant of the data model: [0 <= left < right <= 1]. *)
Definition valid_horizontal (hv : HorizontalViewport) : Prop :=
  0 <= viewportLeft hv /\ viewportLeft hv < viewportRight hv /\
  viewportRight hv <= 1.

(** ** Pure helpers *)

(** [function clamp(min, max, value)]:
    [Math.max(min, Math.min(max, value))]. *)
Definition clamp (min max value : Q) : Q := Qmax min (Qmin max value).

(** [getHorizontalViewport(previewSelection, timeRange)]. *)
Definition getHorizontalViewport (previewSelection : PreviewSelection)
    (timeRange : StartEndRange) : HorizontalViewport :=
  match previewSelection with
  | Selection _ selectionStart selectionEnd =>
      let timeRangeLength := range_end timeRange - range_start timeRange in
      {| viewportLeft := (selectionStart - range_start timeRange) / timeRangeLength;
         viewportRight := (selectionEnd - range_start timeRange) / timeRangeLength |}
  | NoSelection _ => {| viewportLeft := 0; viewportRight := 1 |}
  end.

(** The selection that [zoomRangeSelection] and [moveViewport] build from a
    pair of unit-interval bounds (the [return { hasSelection: true, ... }]
    at the end of both callbacks). *)
Definition selectionOfViewport (timeRange : StartEndRange)
    (newViewportLeft newViewportRight : Q) : PreviewSelection :=
  let timeRangeLength := range_end timeRange - range_start timeRange in
  Selection false
    (range_start timeRange + timeRangeLength * newViewportLeft)
    (range_start timeRange + timeRangeLength * newViewportRight).

(** Comparisons of the code as booleans: [a < b], [a > b] is [b < a],
    [a >= b] is [b <= a], [a !== b]. *)
Definition Qlt_bool (a b : Q) : bool := negb (Qle_bool b a).
Definition Qneq_bool (a b : Q) : bool := negb (Qeq_bool a b).

(** ** Props, state and the component instance *)

(** [viewportProps] of [ViewportOwnProps] (the fields the logic reads;
    the optional booleans default to [false]). *)
Record ViewportProps : Type := mkProps {
  timeRange : StartEndRange;
  maxViewportHeight : Q;
  startsAtBottom : bool;
  maximumZoom : Q;
  previewSelection : PreviewSelection;
  disableHorizontalMovement : bool;
  marginLeft : Q;
  marginRight : Q
}.

(** [State] of the component. *)
Record State : Type := mkState {
  containerWidth : Q;
  containerHeight : Q;
  containerLeft : Q;
  viewportTop : Q;
  viewportBottom : Q;
  horizontalViewport : HorizontalViewport;
  dragX : Q;
  dragY : Q;
  isDragging : bool;
  isScrollHintVisible : bool;
  isSizeSet : bool
}.

(** A queued update, [(HorizontalViewport) => PreviewSelection].  The zoom
    callback reads [this.props] when it runs, so a callback also receives
    the props of the moment it is called. *)
Definition Update : Type :=
  ViewportProps -> HorizontalViewport -> PreviewSelection.

(** What the component hands to [requestAnimationFrame]. *)
Inductive FrameCallback : Type :=
| FlushFrame        (* () => this._flushPendingPreviewSelectionUpdates() *)
| KeyboardFrame     (* this._keyboardNavigation *)
| SetSizeFrame.     (* this._setSize *)

Definition FrameCallback_eqb (a b : FrameCallback) : bool :=
  match a, b with
  | FlushFrame, FlushFrame
  | KeyboardFrame, KeyboardFrame
  | SetSizeFrame, SetSizeFrame => true
  | _, _ => false
  end.

(** [NavigationKey], the union of six string literals. *)
Module Nav.
Inductive NavigationKey : Type :=
| zoomIn | zoomOut | up | down | left | right.

Definition eqb (a b : NavigationKey) : bool :=
  match a, b with
  | zoomIn, zoomIn | zoomOut, zoomOut | up, up
  | down, down | left, left | right, right => true
  | _, _ => false
  end.
End Nav.
Definition NavigationKey : Type := Nav.NavigationKey.

(** The instance: React state, the instance fields, and the two kinds of
    calls that leave the component, each logged oldest first
    ([requestAnimationFrame] and the [updatePreviewSelection] dispatch). *)
Record Component : Type := mkComponent {
  state : State;
  _pendingPreviewSelectionUpdates : list Update;
  _lastKeyboardNavigationFrame : Q;
  _keysDown : list NavigationKey;   (* a [Set], in insertion order *)
  requestedFrames : list FrameCallback;
  dispatched : list PreviewSelection
}.

Definition setState (st : State) (c : Component) : Component :=
  mkComponent st (_pendingPreviewSelectionUpdates c)
    (_lastKeyboardNavigationFrame c) (_keysDown c)
    (requestedFrames c) (dispatched c).

Definition setPending (l : list Update) (c : Component) : Component :=
  mkComponent (state c) l (_lastKeyboardNavigationFrame c) (_keysDown c)
    (requestedFrames c) (dispatched c).

Definition setLastFrame (t : Q) (c : Component) : Component :=
  mkComponent (state c) (_pendingPreviewSelectionUpdates c) t (_keysDown c)
    (requestedFrames c) (dispatched c).

Definition setKeysDown (k : list NavigationKey) (c : Component) : Component :=
  mkComponent (state c) (_pendingPreviewSelectionUpdates c)
    (_lastKeyboardNavigationFrame c) k (requestedFrames c) (dispatched c).

Definition requestAnimationFrame (f : FrameCallback) (c : Component)
    : Component :=
  mkComponent (state c) (_pendingPreviewSelectionUpdates c)
    (_lastKeyboardNavigationFrame c) (_keysDown c)
    (requestedFrames c ++ [f]) (dispatched c).

Definition updatePreviewSelection (s : PreviewSelection) (c : Component)
    : Component :=
  mkComponent (state c) (_pendingPreviewSelectionUpdates c)
    (_lastKeyboardNavigationFrame c) (_keysDown c)
    (requestedFrames c) (dispatched c ++ [s]).

(** [getDefaultState(props)]. *)
Definition getDefaultState (props : ViewportProps) : State :=
  {| containerWidth := 0;
     containerHeight := 0;
     containerLeft := 0;
     viewportTop := 0;
     viewportBottom :=
       if startsAtBottom props then maxViewportHeight props else 0;
     horizontalViewport :=
       getHorizontalViewport (previewSelection props) (timeRange props);
     dragX := 0;
     dragY := 0;
     isDragging := false;
     isScrollHintVisible := false;
     isSizeSet := false |}.

(** The constructor: default state, empty queue, no key down. *)
Definition newComponent (props : ViewportProps) : Component :=
  {| state := getDefaultState props;
     _pendingPreviewSelectionUpdates := [];
     _lastKeyboardNavigationFrame := 0;
     _keysDown := [];
     requestedFrames := [];
     dispatched := [] |}.

(** The part of [getBoundingClientRect()] that [_setSize] reads. *)
Record Rect : Type := mkRect {
  rect_width : Q;
  rect_height : Q;
  rect_left : Q
}.

(** [_setSize], for a mounted container whose bounding rectangle is [rect]. *)
Definition _setSize (props : ViewportProps) (rect : Rect) (c : Component)
    : Component :=
  let prevState := state c in
  if Qneq_bool (containerWidth prevState) (rect_width rect)
     || Qneq_bool (containerHeight prevState) (rect_height rect)
  then
    setState
      {| containerWidth := rect_width rect;
         containerHeight := rect_height rect;
         containerLeft := rect_left rect;
         viewportTop :=
           if startsAtBottom props
           then viewportBottom prevState - rect_height rect
           else viewportTop prevState;
         viewportBottom :=
           if startsAtBottom props
           then viewportBottom prevState
           else viewportTop prevState + rect_height rect;
         horizontalViewport := horizontalViewport prevState;
         dragX := dragX prevState;
         dragY := dragY prevState;
         isDragging := isDragging prevState;
         isScrollHintVisible := isScrollHintVisible prevState;
         isSizeSet := true |} c
  else c.

Definition setHorizontalViewport (hv : HorizontalViewport) (st : State)
    : State :=
  {| containerWidth := containerWidth st;
     containerHeight := containerHeight st;
     containerLeft := containerLeft st;
     viewportTop := viewportTop st;
     viewportBottom := viewportBottom st;
     horizontalViewport := hv;
     dragX := dragX st;
     dragY := dragY st;
     isDragging := isDragging st;
     isScrollHintVisible := isScrollHintVisible st;
     isSizeSet := isSizeSet st |}.

(** [UNSAFE_componentWillReceiveProps(newProps)].  The three tests compare
    objects by reference or call the chart's [viewportNeedsUpdate]; their
    results are the three booleans. *)
Definition UNSAFE_componentWillReceiveProps
    (viewportNeedsUpdate selectionOrRangeChanged layoutChanged : bool)
    (newProps : ViewportProps) (c : Component) : Component :=
  if viewportNeedsUpdate then
    requestAnimationFrame SetSizeFrame (setState (getDefaultState newProps) c)
  else if selectionOrRangeChanged then
    setState
      (setHorizontalViewport
         (getHorizontalViewport (previewSelection newProps) (timeRange newProps))
         (state c)) c
  else if layoutChanged then
    requestAnimationFrame SetSizeFrame c
  else c.

(** ** Batched preview-selection updates *)

(** [_addBatchedPreviewSelectionUpdate(callback)]: the first callback of a
    batch requests the frame that will flush the queue. *)
Definition _addBatchedPreviewSelectionUpdate (callback : Update)
    (c : Component) : Component :=
  let c1 :=
    match _pendingPreviewSelectionUpdates c with
    | [] => requestAnimationFrame FlushFrame c
    | _ :: _ => c
    end in
  setPending (_pendingPreviewSelectionUpdates c1 ++ [callback]) c1.

(** The [for (const callback of pendingUpdates)] loop of the flush, with
    [nextSelection] as the loop variable. *)
Fixpoint flushLoop (props : ViewportProps) (pendingUpdates : list Update)
    (nextSelection : PreviewSelection) : PreviewSelection :=
  match pendingUpdates with
  | [] => nextSelection
  | callback :: rest =>
      let horizontalViewport :=
        getHorizontalViewport nextSelection (timeRange props) in
      flushLoop props rest (callback props horizontalViewport)
  end.

(** [_flushPendingPreviewSelectionUpdates()]. *)
Definition _flushPendingPreviewSelectionUpdates (props : ViewportProps)
    (c : Component) : Component :=
  match _pendingPreviewSelectionUpdates c with
  | [] => c
  | pendingUpdates =>
      let c1 := setPending [] c in
      let nextSelection :=
        flushLoop props pendingUpdates (previewSelection props) in
      updatePreviewSelection nextSelection c1
  end.

(** ** Zoom *)

(** The bounds [newViewportLeft], [newViewportRight] computed by the
    callback of [zoomRangeSelection]. *)
Definition zoomedViewport (maximumZoom center zoomFactor : Q)
    (hv : HorizontalViewport) : HorizontalViewport :=
  let viewportLength := viewportRight hv - viewportLeft hv in
  let newViewportLength := clamp maximumZoom 1 (viewportLength * zoomFactor) in
  let deltaViewportLength := newViewportLength - viewportLength in
  let newViewportLeft :=
    clamp 0 (1 - newViewportLength)
      (viewportLeft hv - deltaViewportLength * center) in
  let newViewportRight :=
    clamp newViewportLength 1
      (viewportRight hv + deltaViewportLength * (1 - center)) in
  {| viewportLeft := newViewportLeft; viewportRight := newViewportRight |}.

(** The callback queued by [zoomRangeSelection(center, zoomFactor)];
    [maximumZoom] is read when the zoom is requested, [timeRange] when the
    callback runs. *)
Definition zoomUpdate (maximumZoom center zoomFactor : Q) : Update :=
  fun props hv =>
    let new := zoomedViewport maximumZoom center zoomFactor hv in
    if Qeq_bool (viewportLeft new) 0 && Qeq_bool (viewportRight new) 1
    then NoSelection false
    else selectionOfViewport (timeRange props)
           (viewportLeft new) (viewportRight new).

(** [zoomRangeSelection(center, zoomFactor)]. *)
Definition zoomRangeSelection (props : ViewportProps)
    (center zoomFactor : Q) (c : Component) : Component :=
  if disableHorizontalMovement props then c
  else _addBatchedPreviewSelectionUpdate
         (zoomUpdate (maximumZoom props) center zoomFactor) c.

(** ** Pan *)

(** The bounds [newViewportLeft], [newViewportRight] computed by the
    callback of [moveViewport] when the viewport is narrower than 1. *)
Definition pannedViewport (containerWidth offsetX : Q)
    (hv : HorizontalViewport) : HorizontalViewport :=
  let viewportLength := viewportRight hv - viewportLeft hv in
  let unitOffsetX := (viewportLength * offsetX) / containerWidth in
  let newViewportLeft := viewportLeft hv - unitOffsetX in
  let newViewportRight := viewportRight hv - unitOffsetX in
  let '(newViewportLeft, newViewportRight) :=
    if Qlt_bool newViewportLeft 0 then (0, viewportLength)
    else (newViewportLeft, newViewportRight) in
  let '(newViewportLeft, newViewportRight) :=
    if Qlt_bool 1 newViewportRight then (1 - viewportLength, 1)
    else (newViewportLeft, newViewportRight) in
  {| viewportLeft := newViewportLeft; viewportRight := newViewportRight |}.

(** The callback queued by [moveViewport]; [timeRange] and
    [containerWidth] are read when the move is requested. *)
Definition moveUpdate (timeRange : StartEndRange)
    (containerWidth offsetX : Q) : Update :=
  fun _ hv =>
    let viewportLength := viewportRight hv - viewportLeft hv in
    if Qle_bool 1 viewportLength then NoSelection false
    else
      let new := pannedViewport containerWidth offsetX hv in
      selectionOfViewport timeRange (viewportLeft new) (viewportRight new).

(** The vertical part of [moveViewport]: [(newViewportTop, newViewportBottom)]. *)
Definition movedVertical (maxViewportHeight : Q) (startsAtBottom : bool)
    (containerHeight viewportTop offsetY : Q) : Q * Q :=
  let newViewportTop := viewportTop - offsetY in
  let newViewportBottom := newViewportTop + containerHeight in
  if Qlt_bool maxViewportHeight containerHeight then
    if startsAtBottom
    then (maxViewportHeight - containerHeight, maxViewportHeight)
    else (0, containerHeight)
  else if Qlt_bool maxViewportHeight newViewportBottom then
    (maxViewportHeight - containerHeight, maxViewportHeight)
  else if Qlt_bool newViewportTop 0 then
    (0, containerHeight)
  else (newViewportTop, newViewportBottom).

Definition setViewportTopBottom (top bottom : Q) (st : State) : State :=
  {| containerWidth := containerWidth st;
     containerHeight := containerHeight st;
     containerLeft := containerLeft st;
     viewportTop := top;
     viewportBottom := bottom;
     horizontalViewport := horizontalViewport st;
     dragX := dragX st;
     dragY := dragY st;
     isDragging := isDragging st;
     isScrollHintVisible := isScrollHintVisible st;
     isSizeSet := isSizeSet st |}.

(** [moveViewport(offsetX, offsetY)]. *)
Definition moveViewport (props : ViewportProps) (offsetX offsetY : Q)
    (c : Component) : Component :=
  let st := state c in
  if negb (isSizeSet st) then c
  else
    let '(newViewportTop, newViewportBottom) :=
      movedVertical (maxViewportHeight props) (startsAtBottom props)
        (containerHeight st) (viewportTop st) offsetY in
    let c1 :=
      if Qneq_bool newViewportTop (viewportTop st)
      then setState (setViewportTopBottom newViewportTop newViewportBottom st) c
      else c in
    if negb (disableHorizontalMovement props)
    then _addBatchedPreviewSelectionUpdate
           (moveUpdate (timeRange props) (containerWidth st) offsetX) c1
    else c1.

(** ** Keyboard navigation *)

(** [KEYBOARD_NAVIGATION_SPEED] (pixels per second) and
    [MAX_KEYBOARD_DELTA] (pixels). *)
Definition KEYBOARD_NAVIGATION_SPEED : Q := 2000.
Definition MAX_KEYBOARD_DELTA : Q := 500.

(** [ZOOM_SPEED]. *)
Definition ZOOM_SPEED : Q := 1003 # 1000.

(** [BARE_KEYMAP] and [CTRL_KEYMAP]; [None] is [undefined]. *)
Definition BARE_KEYMAP (code : string) : option NavigationKey :=
  if String.eqb code "KeyQ" then Some Nav.zoomIn
  else if String.eqb code "KeyY" then Some Nav.zoomIn
  else if String.eqb code "KeyE" then Some Nav.zoomOut
  else if String.eqb code "KeyU" then Some Nav.zoomOut
  else if String.eqb code "KeyW" then Some Nav.up
  else if String.eqb code "KeyK" then Some Nav.up
  else if String.eqb code "KeyS" then Some Nav.down
  else if String.eqb code "KeyJ" then Some Nav.down
  else if String.eqb code "KeyA" then Some Nav.left
  else if String.eqb code "KeyH" then Some Nav.left
  else if String.eqb code "KeyD" then Some Nav.right
  else if String.eqb code "KeyL" then Some Nav.right
  else None.

Definition CTRL_KEYMAP (code : string) : option NavigationKey :=
  if String.eqb code "ArrowUp" then Some Nav.zoomIn
  else if String.eqb code "ArrowDown" then Some Nav.zoomOut
  else None.

(** [getObjectValuesAsUnion(CTRL_KEYMAP)]. *)
Definition CTRL_KEYMAP_values : list NavigationKey :=
  [Nav.zoomIn; Nav.zoomOut].

(** The fields of a keyboard event that the listeners read. *)
Record KeyboardEvent : Type := mkKeyboardEvent {
  ctrlKey : bool;
  shiftKey : bool;
  altKey : bool;
  metaKey : bool;
  code : string
}.

(** [Set.prototype.add] and [Set.prototype.delete] on the insertion-ordered
    list of keys. *)
Definition keys_add (k : NavigationKey) (s : list NavigationKey)
    : list NavigationKey :=
  if existsb (Nav.eqb k) s then s else s ++ [k].

Definition keys_delete (k : option NavigationKey) (s : list NavigationKey)
    : list NavigationKey :=
  match k with
  | Some k => filter (fun k' => negb (Nav.eqb k k')) s
  | None => s
  end.

(** [_keyDownListener(event)]; [performance.now()] is the argument [now]. *)
Definition _keyDownListener (event : KeyboardEvent) (now : Q)
    (c : Component) : Component :=
  let navigationKey :=
    if negb (ctrlKey event) && negb (shiftKey event)
       && negb (altKey event) && negb (metaKey event)
    then BARE_KEYMAP (code event)
    else if ctrlKey event then CTRL_KEYMAP (code event)
    else None in
  match navigationKey with
  | Some navigationKey =>
      let c1 :=
        match _keysDown c with
        | [] => setLastFrame now (requestAnimationFrame KeyboardFrame c)
        | _ :: _ => c
        end in
      setKeysDown (keys_add navigationKey (_keysDown c1)) c1
  | None => c
  end.

(** [_keyUpListener(event)]. *)
Definition _keyUpListener (event : KeyboardEvent) (c : Component)
    : Component :=
  let keys := _keysDown c in
  let keys :=
    if negb (ctrlKey event)
    then fold_left (fun s k => keys_delete (Some k) s) CTRL_KEYMAP_values keys
    else keys in
  let keys := keys_delete (CTRL_KEYMAP (code event)) keys in
  let keys := keys_delete (BARE_KEYMAP (code event)) keys in
  setKeysDown keys c.

(** The [delta] of a navigation frame:
    [Math.min(KEYBOARD_NAVIGATION_SPEED * (timestamp - last) * 0.001,
              MAX_KEYBOARD_DELTA)]. *)
Definition keyboardDelta (timestamp lastKeyboardNavigationFrame : Q) : Q :=
  Qmin (KEYBOARD_NAVIGATION_SPEED
          * (timestamp - lastKeyboardNavigationFrame) * (1 # 1000))
       MAX_KEYBOARD_DELTA.

(** The call that the [switch] of [_keyboardNavigation] makes for a key:
    [zoomRangeSelection(center, this._deltaToZoomFactor(exponent))] or
    [moveViewport(offsetX, offsetY)]. *)
Inductive NavigationCall : Type :=
| CallZoomRangeSelection (center exponent : Q)
| CallMoveViewport (offsetX offsetY : Q).

Definition navigationCall (navigationKey : NavigationKey) (delta : Q)
    : NavigationCall :=
  match navigationKey with
  | Nav.zoomIn => CallZoomRangeSelection (1 # 2) (- delta)
  | Nav.zoomOut => CallZoomRangeSelection (1 # 2) delta
  | Nav.up => CallMoveViewport 0 delta
  | Nav.down => CallMoveViewport 0 (- delta)
  | Nav.left => CallMoveViewport delta 0
  | Nav.right => CallMoveViewport (- delta) 0
  end.

(** The number of pixels (or the zoom exponent) a call moves by. *)
Definition callDistance (call : NavigationCall) : Q :=
  match call with
  | CallZoomRangeSelection _ exponent => Qabs exponent
  | CallMoveViewport offsetX offsetY => Qabs offsetX + Qabs offsetY
  end.

Section KeyboardNavigation.

(** [Math.pow] is not a rational function: it is a parameter. *)
Variable Math_pow : Q -> Q -> Q.

(** [_deltaToZoomFactor = delta => Math.pow(ZOOM_SPEED, delta)]. *)
Definition _deltaToZoomFactor (delta : Q) : Q := Math_pow ZOOM_SPEED delta.

Definition performCall (props : ViewportProps) (call : NavigationCall)
    (c : Component) : Component :=
  match call with
  | CallZoomRangeSelection center exponent =>
      zoomRangeSelection props center (_deltaToZoomFactor exponent) c
  | CallMoveViewport offsetX offsetY =>
      moveViewport props offsetX offsetY c
  end.

(** The [for (const navigationKey of this._keysDown.values())] loop. *)
Fixpoint navigationLoop (props : ViewportProps) (delta : Q)
    (keys : list NavigationKey) (c : Component) : Component :=
  match keys with
  | [] => c
  | navigationKey :: rest =>
      navigationLoop props delta rest
        (performCall props (navigationCall navigationKey delta) c)
  end.

(** [_keyboardNavigation(timestamp)]. *)
Definition _keyboardNavigation (props : ViewportProps) (timestamp : Q)
    (c : Component) : Component :=
  match _keysDown c with
  | [] => c
  | keys =>
      let delta := keyboardDelta timestamp (_lastKeyboardNavigationFrame c) in
      let c1 := setLastFrame timestamp c in
      let c2 := navigationLoop props delta keys c1 in
      requestAnimationFrame KeyboardFrame c2
  end.

End KeyboardNavigation.

(** The number of frames of one kind among the requested ones. *)
Definition countFrames (f : FrameCallback) (c : Component) : nat :=
  List.length (filter (FrameCallback_eqb f) (requestedFrames c)).

(** The unit-interval position of the point that sits at the fraction
    [center] of the window:
    [viewportLeft + (viewportRight - viewportLeft) * center]. *)
Definition anchorPosition (hv : HorizontalViewport) (center : Q) : Q :=
  viewportLeft hv + (viewportRight hv - viewportLeft hv) * center.

(** The vertical invariant of the data model:
    [bottom - top == containerHeight] once the size is set. *)
Definition vertical_sized (st : State) : Prop :=
  isSizeSet st = true ->
  viewportBottom st - viewportTop st == containerHeight st.

(** ** Frames of batched updates *)

(** The components reachable from [c0] by pan requests, zoom requests and
    flush frames, with the number of flush frames run so far.  The browser
    runs a flush frame only if one was requested and has not run yet. *)
Inductive batching (c0 : Component) : Component -> nat -> Prop :=
| batching_start : batching c0 c0 0
| batching_move (c : Component) (n : nat) (props : ViewportProps)
    (offsetX offsetY : Q) :
    batching c0 c n ->
    batching c0 (moveViewport props offsetX offsetY c) n
| batching_zoom (c : Component) (n : nat) (props : ViewportProps)
    (center zoomFactor : Q) :
    batching c0 c n ->
    batching c0 (zoomRangeSelection props center zoomFactor c) n
| batching_frame (c : Component) (n : nat) (props : ViewportProps) :
    batching c0 c n ->
    (n < countFrames FlushFrame c)%nat ->
    batching c0 (_flushPendingPreviewSelectionUpdates props c) (S n).

(** The flush frames requested and not yet run: one while the queue is
    not empty, none otherwise. *)
Definition outstandingFlushFrames (c : Component) : nat :=
  match _pendingPreviewSelectionUpdates c with
  | [] => 0%nat
  | _ :: _ => 1%nat
  end.

(** ** Sample inputs *)

(** A chart over the committed range [0, 10] ms whose content is 100 px
    high, mounted in a container that is 1000 px wide and 50 px high. *)
Definition sampleProps : ViewportProps :=
  {| timeRange := mkRange 0 10;
     maxViewportHeight := 100;
     startsAtBottom := false;
     maximumZoom := 1 # 100;
     previewSelection := NoSelection false;
     disableHorizontalMovement := false;
     marginLeft := 0;
     marginRight := 0 |}.

Definition sampleComponent : Component :=
  _setSize sampleProps (mkRect 1000 50 0) (newComponent sampleProps).

(** The same chart in a container 200 px high, taller than the content,
    growing from the bottom or from the top. *)
Definition tallProps (startsAtBottom : bool) : ViewportProps :=
  {| timeRange := mkRange 0 10;
     maxViewportHeight := 100;
     startsAtBottom := startsAtBottom;
     maximumZoom := 1 # 100;
     previewSelection := NoSelection false;
     disableHorizontalMovement := false;
     marginLeft := 0;
     marginRight := 0 |}.

Definition tallComponent (startsAtBottom : bool) : Component :=
  _setSize (tallProps startsAtBottom) (mkRect 1000 200 0)
    (newComponent (tallProps startsAtBottom)).

(** ** Wheel events *)

(** [DOM_DELTA_LINE] and [DOM_DELTA_PAGE] of [WheelEvent] (also the values
    of the fallback object), and [SCROLL_LINE_SIZE]. *)
Definition DOM_DELTA_LINE : nat := 1.
Definition DOM_DELTA_PAGE : nat := 2.
Definition SCROLL_LINE_SIZE : Q := 15.

(** The fields of a wheel event that the component reads. *)
Record WheelEvent : Type := mkWheelEvent {
  wheel_deltaX : Q;
  wheel_deltaY : Q;
  wheel_deltaMode : nat;
  wheel_ctrlKey : bool;
  wheel_shiftKey : bool;
  wheel_clientX : Q
}.

(** The [key] argument of [getNormalizedScrollDelta]. *)
Inductive DeltaKey : Type := deltaY | deltaX.

(** [getNormalizedScrollDelta(event, pageHeight, key)]. *)
Definition getNormalizedScrollDelta (event : WheelEvent) (pageHeight : Q)
    (key : DeltaKey) : Q :=
  let delta :=
    match key with
    | deltaY => wheel_deltaY event
    | deltaX => wheel_deltaX event
    end in
  if Nat.eqb (wheel_deltaMode event) DOM_DELTA_PAGE then delta * pageHeight
  else if Nat.eqb (wheel_deltaMode event) DOM_DELTA_LINE
  then delta * SCROLL_LINE_SIZE
  else delta.

(** [PINCH_ZOOM_FACTOR]. *)
Definition PINCH_ZOOM_FACTOR : Q := 3.

(** ** The connected component: scroll hint, wheel and drag *)

(** The props of the connected component: [viewportProps], the state prop
    [hasZoomedViaMousewheel], and whether the optional dispatch prop
    [setHasZoomedViaMousewheel] is given. *)
Record ConnectedProps : Type := mkConnectedProps {
  viewportProps : ViewportProps;
  hasZoomedViaMousewheel : bool;
  setHasZoomedViaMousewheel_given : bool
}.

(** The instance with the fields and effects of the scroll hint and the wheel:
    the counter [zoomScrollId], the scroll ids captured by the callbacks
    handed to [setTimeout] (oldest first), and the number of
    [setHasZoomedViaMousewheel()] calls. *)
Record Chart : Type := mkChart {
  component : Component;
  zoomScrollId : nat;
  timeouts : list nat;
  setHasZoomedViaMousewheel_calls : nat
}.

Definition onComponent (f : Component -> Component) (ch : Chart) : Chart :=
  mkChart (f (component ch)) (zoomScrollId ch) (timeouts ch)
    (setHasZoomedViaMousewheel_calls ch).

Definition newChart (props : ConnectedProps) : Chart :=
  {| component := newComponent (viewportProps props);
     zoomScrollId := 0;
     timeouts := [];
     setHasZoomedViaMousewheel_calls := 0 |}.

Definition setScrollHintVisible (visible : bool) (st : State) : State :=
  {| containerWidth := containerWidth st;
     containerHeight := containerHeight st;
     containerLeft := containerLeft st;
     viewportTop := viewportTop st;
     viewportBottom := viewportBottom st;
     horizontalViewport := horizontalViewport st;
     dragX := dragX st;
     dragY := dragY st;
     isDragging := isDragging st;
     isScrollHintVisible := visible;
     isSizeSet := isSizeSet st |}.

Definition setDrag (x y : Q) (dragging : bool) (st : State) : State :=
  {| containerWidth := containerWidth st;
     containerHeight := containerHeight st;
     containerLeft := containerLeft st;
     viewportTop := viewportTop st;
     viewportBottom := viewportBottom st;
     horizontalViewport := horizontalViewport st;
     dragX := x;
     dragY := y;
     isDragging := dragging;
     isScrollHintVisible := isScrollHintVisible st;
     isSizeSet := isSizeSet st |}.

(** [showScrollingHint()]: the callback given to [setTimeout] captures
    [scrollId]. *)
Definition showScrollingHint (props : ConnectedProps) (ch : Chart) : Chart :=
  if hasZoomedViaMousewheel props then ch
  else
    let scrollId := S (zoomScrollId ch) in
    let c := component ch in
    let c1 :=
      if negb (isScrollHintVisible (state c))
      then setState (setScrollHintVisible true (state c)) c
      else c in
    mkChart c1 scrollId (timeouts ch ++ [scrollId])
      (setHasZoomedViaMousewheel_calls ch).

(** The callback of [showScrollingHint] that captured [scrollId], run when
    its second is over. *)
Definition scrollHintTimeout (scrollId : nat) (ch : Chart) : Chart :=
  if Nat.eqb scrollId (zoomScrollId ch)
  then onComponent
         (fun c => setState (setScrollHintVisible false (state c)) c) ch
  else ch.

(** [_mouseUpListener(event)]: the state update; the removal of the two
    window listeners is not part of the model. *)
Definition _mouseUpListener (c : Component) : Component :=
  setState (setDrag (dragX (state c)) (dragY (state c)) false (state c)) c.

(** The fields of a mouse event that the listeners read. *)
Record MouseEvent : Type := mkMouseEvent {
  clientX : Q;
  clientY : Q
}.

(** [_mouseMoveListener(event)]. *)
Definition _mouseMoveListener (props : ViewportProps) (event : MouseEvent)
    (c : Component) : Component :=
  let st := state c in
  let '(dragX, dragY) :=
    if negb (isDragging st) then (clientX event, clientY event)
    else (dragX st, dragY st) in
  let offsetX := clientX event - dragX in
  let offsetY := clientY event - dragY in
  let c1 := setState (setDrag (clientX event) (clientY event) true st) c in
  moveViewport props offsetX offsetY c1.

(** The props after the store took a new preview selection. *)
Definition withPreviewSelection (sel : PreviewSelection)
    (props : ViewportProps) : ViewportProps :=
  {| timeRange := timeRange props;
     maxViewportHeight := maxViewportHeight props;
     startsAtBottom := startsAtBottom props;
     maximumZoom := maximumZoom props;
     previewSelection := sel;
     disableHorizontalMovement := disableHorizontalMovement props;
     marginLeft := marginLeft props;
     marginRight := marginRight props |}.

Section Wheel.

Variable Math_pow : Q -> Q -> Q.

(** The [mouseCenter] of [zoomWithMouseWheel]. *)
Definition mouseCenter (props : ViewportProps) (st : State) (mouseX : Q) : Q :=
  let innerContainerWidth :=
    containerWidth st - marginLeft props - marginRight props in
  (mouseX - containerLeft st - marginLeft props) / innerContainerWidth.

(** [zoomWithMouseWheel(event, zoomModifier)]. *)
Definition zoomWithMouseWheel (props : ConnectedProps) (event : WheelEvent)
    (zoomModifier : Q) (ch : Chart) : Chart :=
  let calls :=
    if negb (hasZoomedViaMousewheel props)
       && setHasZoomedViaMousewheel_given props
    then S (setHasZoomedViaMousewheel_calls ch)
    else setHasZoomedViaMousewheel_calls ch in
  let st := state (component ch) in
  let deltaY :=
    getNormalizedScrollDelta event (containerHeight st)
      (if Qeq_bool (wheel_deltaY event) 0 then deltaX else deltaY) in
  let zoomFactor := _deltaToZoomFactor Math_pow (deltaY * zoomModifier) in
  let center := mouseCenter (viewportProps props) st (wheel_clientX event) in
  mkChart
    (zoomRangeSelection (viewportProps props) center zoomFactor (component ch))
    (zoomScrollId ch) (timeouts ch) calls.

(** [_mouseWheelListener(event)]. *)
Definition _mouseWheelListener (props : ConnectedProps) (event : WheelEvent)
    (ch : Chart) : Chart :=
  let disabled := disableHorizontalMovement (viewportProps props) in
  if wheel_ctrlKey event || wheel_shiftKey event then
    if negb disabled
    then zoomWithMouseWheel props event
           (if wheel_ctrlKey event then PINCH_ZOOM_FACTOR else 1) ch
    else ch
  else
    let ch1 := if negb disabled then showScrollingHint props ch else ch in
    let containerHeight := containerHeight (state (component ch1)) in
    onComponent
      (moveViewport (viewportProps props)
         (- getNormalizedScrollDelta event containerHeight deltaX)
         (- getNormalizedScrollDelta event containerHeight deltaY))
      ch1.

End Wheel.

(** The [navigationKey] that [_keyDownListener] reads off an event:
    [BARE_KEYMAP] without modifiers, [CTRL_KEYMAP] with ctrl, nothing
    otherwise. *)
Definition keyDownNavigationKey (event : KeyboardEvent)
    : option NavigationKey :=
  if negb (ctrlKey event) && negb (shiftKey event)
     && negb (altKey event) && negb (metaKey event)
  then BARE_KEYMAP (code event)
  else if ctrlKey event then CTRL_KEYMAP (code event)
  else None.

(** The props of the sample chart with horizontal movement disabled. *)
Definition verticalOnlyProps : ViewportProps :=
  mkProps (mkRange 0 10) 100 false (1 # 100) (NoSelection false) true 0 0.

(** ** The arithmetic in binary64 *)

Module Double.

Import Stdlib.Floats.Floats.
Local Open Scope float_scope.
#[local] Set Warnings "-inexact-float".

Record StartEndRange : Type := mkRange {
  range_start : float;
  range_end : float
}.

Inductive PreviewSelection : Type :=
| NoSelection (isModifying : bool)
| Selection (isModifying : bool) (selectionStart selectionEnd : float).

Definition hasSelection (s : PreviewSelection) : bool :=
  match s with
  | NoSelection _ => false
  | Selection _ _ _ => true
  end.

Record HorizontalViewport : Type := mkHV {
  viewportLeft : float;
  viewportRight : float
}.

(** [Math.max(a, b)] and [Math.min(a, b)]: [NaN] if an argument is [NaN],
    and [-0] below [+0]. *)
Definition Math_max (a b : float) : float :=
  if is_nan a || is_nan b then nan
  else if a <? b then b
  else if b <? a then a
  else if get_sign a then b else a.

Definition Math_min (a b : float) : float :=
  if is_nan a || is_nan b then nan
  else if a <? b then a
  else if b <? a then b
  else if get_sign a then a else b.

(** [function clamp(min, max, value)]. *)
Definition clamp (min max value : float) : float :=
  Math_max min (Math_min max value).

(** [getHorizontalViewport(previewSelection, timeRange)]. *)
Definition getHorizontalViewport (previewSelection : PreviewSelection)
    (timeRange : StartEndRange) : HorizontalViewport :=
  match previewSelection with
  | Selection _ selectionStart selectionEnd =>
      let timeRangeLength := range_end timeRange - range_start timeRange in
      {| viewportLeft := (selectionStart - range_start timeRange) / timeRangeLength;
         viewportRight := (selectionEnd - range_start timeRange) / timeRangeLength |}
  | NoSelection _ => {| viewportLeft := 0; viewportRight := 1 |}
  end.

(** The [return { hasSelection: true, ... }] of both callbacks. *)
Definition selectionOfViewport (timeRange : StartEndRange)
    (newViewportLeft newViewportRight : float) : PreviewSelection :=
  let timeRangeLength := range_end timeRange - range_start timeRange in
  Selection false
    (range_start timeRange + timeRangeLength * newViewportLeft)
    (range_start timeRange + timeRangeLength * newViewportRight).

(** The bounds computed by the callback of [zoomRangeSelection]. *)
Definition zoomedViewport (maximumZoom center zoomFactor : float)
    (hv : HorizontalViewport) : HorizontalViewport :=
  let viewportLength := viewportRight hv - viewportLeft hv in
  let newViewportLength := clamp maximumZoom 1 (viewportLength * zoomFactor) in
  let deltaViewportLength := newViewportLength - viewportLength in
  let newViewportLeft :=
    clamp 0 (1 - newViewportLength)
      (viewportLeft hv - deltaViewportLength * center) in
  let newViewportRight :=
    clamp newViewportLength 1
      (viewportRight hv + deltaViewportLength * (1 - center)) in
  {| viewportLeft := newViewportLeft; viewportRight := newViewportRight |}.

(** The callback queued by [zoomRangeSelection(center, zoomFactor)], run
    under the time range [timeRange]. *)
Definition zoomUpdate (maximumZoom center zoomFactor : float)
    (timeRange : StartEndRange) (hv : HorizontalViewport) : PreviewSelection :=
  let new := zoomedViewport maximumZoom center zoomFactor hv in
  if (viewportLeft new =? 0) && (viewportRight new =? 1)
  then NoSelection false
  else selectionOfViewport timeRange (viewportLeft new) (viewportRight new).

(** The bounds computed by the callback of [moveViewport] for a viewport
    that is not a whole range wide. *)
Definition pannedViewport (containerWidth offsetX : float)
    (hv : HorizontalViewport) : HorizontalViewport :=
  let viewportLength := viewportRight hv - viewportLeft hv in
  let unitOffsetX := (viewportLength * offsetX) / containerWidth in
  let newViewportLeft := viewportLeft hv - unitOffsetX in
  let newViewportRight := viewportRight hv - unitOffsetX in
  let '(newViewportLeft, newViewportRight) :=
    if newViewportLeft <? 0 then (0, viewportLength)
    else (newViewportLeft, newViewportRight) in
  let '(newViewportLeft, newViewportRight) :=
    if 1 <? newViewportRight then (1 - viewportLength, 1)
    else (newViewportLeft, newViewportRight) in
  {| viewportLeft := newViewportLeft; viewportRight := newViewportRight |}.

(** The callback queued by [moveViewport]. *)
Definition moveUpdate (timeRange : StartEndRange)
    (containerWidth offsetX : float) (hv : HorizontalViewport)
    : PreviewSelection :=
  let viewportLength := viewportRight hv - viewportLeft hv in
  if 1 <=? viewportLength then NoSelection false
  else
    let new := pannedViewport containerWidth offsetX hv in
    selectionOfViewport timeRange (viewportLeft new) (viewportRight new).

(** The [viewportTop] and [viewportBottom] that the updater of [_setSize]
    computes from the previous ones and the measured height. *)
Definition setSizeVertical (startsAtBottom : bool)
    (prevTop prevBottom height : float) : float * float :=
  (if startsAtBottom then prevBottom - height else prevTop,
   if startsAtBottom then prevBottom else prevTop + height).

(** Inputs of the examples below. *)
Definition range_0_10 : StartEndRange := mkRange 0 10.
Definition range_5_5 : StartEndRange := mkRange 5 5.
Definition window_0_03 : HorizontalViewport := mkHV 0 0.3.
Definition window_025_075 : HorizontalViewport := mkHV 0.25 0.75.
Definition window_0_002 : HorizontalViewport := mkHV 0 0.02.
Definition zoomLimit : float := 0.01.
Definition half : float := 0.5.
Definition measuredHeight : float := 123.4.

End Double.

(** ** Facts about the helpers *)

Lemma clamp_cases (lo hi v : Q) :
  (lo <= v /\ v <= hi /\ clamp lo hi v == v) \/
  (v <= lo /\ v <= hi /\ clamp lo hi v == lo) \/
  (hi <= v /\ lo <= hi /\ clamp lo hi v == hi) \/
  (hi <= v /\ hi <= lo /\ clamp lo hi v == lo).
Proof.
  unfold clamp.
  destruct (Q.min_spec hi v) as [[H1 E1] | [H1 E1]];
    destruct (Q.max_spec lo (Qmin hi v)) as [[H2 E2] | [H2 E2]];
    rewrite E2; rewrite E1 in *.
  - right; right; left. repeat split; lra.
  - right; right; right. repeat split; lra.
  - left. repeat split; lra.
  - right; left. repeat split; lra.
Qed.

(** [clamp] stays inside a non-empty interval. *)
Lemma clamp_bounds (lo hi v : Q) :
  lo <= hi -> lo <= clamp lo hi v /\ clamp lo hi v <= hi.
Proof.
  intros H.
  destruct (clamp_cases lo hi v) as [C | [C | [C | C]]]; lra.
Qed.

Lemma roundtrip_field (s len x : Q) :
  ~ len == 0 -> (s + len * x - s) / len == x.
Proof. intros H. field. exact H. Qed.

(** C10 (round trip).  For a time range with [end > start], the selection
    that maps the unit-interval pair [(left, right)] into absolute time is
    mapped back by [getHorizontalViewport] to [(left, right)], whether the
    selection is being modified or not (exact arithmetic). *)
Theorem getHorizontalViewport_roundtrip :
  forall (timeRange : StartEndRange) (isModifying : bool) (left right : Q),
    range_start timeRange < range_end timeRange ->
    hv_eq
      (getHorizontalViewport
         (Selection isModifying
            (range_start timeRange
               + (range_end timeRange - range_start timeRange) * left)
            (range_start timeRange
               + (range_end timeRange - range_start timeRange) * right))
         timeRange)
      {| viewportLeft := left; viewportRight := right |} /\
    hv_eq
      (getHorizontalViewport (selectionOfViewport timeRange left right)
                             timeRange)
      {| viewportLeft := left; viewportRight := right |}.
Proof.
  intros [s e] m l r H; simpl in *.
  split; split; simpl; apply roundtrip_field; lra.
Qed.

Lemma getHorizontalViewport_roundtrip_witness :
  hv_eq
    (getHorizontalViewport (Selection false (10 + (30 - 10) * (1#4))
                                            (10 + (30 - 10) * (3#4)))
                           (mkRange 10 30))
    {| viewportLeft := 1#4; viewportRight := 3#4 |}.
Proof.
  apply (getHorizontalViewport_roundtrip (mkRange 10 30) false (1#4) (3#4)).
  reflexivity.
Defined.

(** ** Comparisons *)

Lemma Qlt_bool_iff (a b : Q) : Qlt_bool a b = true <-> a < b.
Proof.
  unfold Qlt_bool. rewrite negb_true_iff.
  destruct (Qle_bool b a) eqn:E.
  - apply Qle_bool_iff in E. split; [discriminate | intros H; lra].
  - split; [intros _ | reflexivity].
    destruct (Qlt_le_dec a b) as [H | H]; [exact H |].
    apply Qle_bool_iff in H. congruence.
Qed.

Lemma Qlt_bool_false (a b : Q) : Qlt_bool a b = false <-> b <= a.
Proof.
  pose proof (Qlt_bool_iff a b) as H.
  destruct (Qlt_bool a b).
  - split; [intros; discriminate | intros; assert (a < b) by (apply H; reflexivity); lra].
  - split; [intros _ | reflexivity].
    destruct (Qlt_le_dec a b) as [L | L]; [apply H in L; discriminate | exact L].
Qed.

Lemma Qle_bool_false (a b : Q) : Qle_bool a b = false <-> b < a.
Proof.
  pose proof (Qle_bool_iff a b) as H.
  destruct (Qle_bool a b).
  - split; [intros; discriminate | intros; assert (a <= b) by (apply H; reflexivity); lra].
  - split; [intros _ | reflexivity].
    destruct (Qlt_le_dec b a) as [L | L]; [exact L | apply H in L; discriminate].
Qed.

Lemma Qneq_bool_false (a b : Q) : Qneq_bool a b = false <-> a == b.
Proof.
  unfold Qneq_bool. rewrite negb_false_iff. apply Qeq_bool_iff.
Qed.

(** ** The selection and the viewport it stands for *)

Lemma getHorizontalViewport_selectionOfViewport (tr : StartEndRange) (l r : Q) :
  ~ range_end tr - range_start tr == 0 ->
  hv_eq (getHorizontalViewport (selectionOfViewport tr l r) tr)
        {| viewportLeft := l; viewportRight := r |}.
Proof.
  intros H. unfold selectionOfViewport, getHorizontalViewport, hv_eq; simpl.
  split; apply roundtrip_field; exact H.
Qed.

Lemma viewportLength_hv_eq (a b : HorizontalViewport) :
  hv_eq a b -> viewportLength a == viewportLength b.
Proof. unfold hv_eq, viewportLength. intros [H1 H2]. lra. Qed.

(** ** Zoom: the computed bounds *)

Lemma zoomedViewport_spec (mz center zf : Q) (hv : HorizontalViewport) :
  mz <= 1 ->
  let z := zoomedViewport mz center zf hv in
  let newLength := clamp mz 1 (viewportLength hv * zf) in
  mz <= newLength /\ newLength <= 1 /\
  0 <= viewportLeft z /\ viewportRight z <= 1 /\
  viewportLength z == newLength.
Proof.
  intros Hmz z newLength.
  assert (Hn : mz <= newLength /\ newLength <= 1)
    by (apply clamp_bounds; exact Hmz).
  unfold viewportLength, z, zoomedViewport; simpl.
  fold (viewportLength hv). fold newLength.
  set (d := newLength - viewportLength hv).
  set (dc := d * center).
  set (e := d * (1 - center)).
  assert (Hd : e == d - dc) by (unfold e, dc; ring).
  assert (Hl : viewportLength hv == viewportRight hv - viewportLeft hv)
    by reflexivity.
  assert (Hdd : d == newLength - viewportLength hv) by reflexivity.
  clearbody e dc d newLength. clear z.
  generalize dependent (viewportLength hv). intros len Hdd Hl.
  destruct hv as [l r]; simpl in *.
  destruct (clamp_cases 0 (1 - newLength) (l - dc))
    as [C | [C | [C | C]]];
    destruct (clamp_cases newLength 1 (r + e))
      as [D | [D | [D | D]]]; repeat split; lra.
Qed.

(** The viewport read back from the selection that the zoom callback
    returns is the computed one. *)
Lemma zoomUpdate_viewport (mz center zf : Q) (props : ViewportProps)
    (hv : HorizontalViewport) :
  ~ range_end (timeRange props) - range_start (timeRange props) == 0 ->
  hv_eq (getHorizontalViewport (zoomUpdate mz center zf props hv)
                               (timeRange props))
        (zoomedViewport mz center zf hv).
Proof.
  intros H. unfold zoomUpdate.
  destruct (zoomedViewport mz center zf hv) as [zl zr]; simpl.
  destruct (Qeq_bool zl 0) eqn:E0; destruct (Qeq_bool zr 1) eqn:E1; simpl;
    try apply (getHorizontalViewport_selectionOfViewport _ zl zr H).
  apply Qeq_bool_iff in E0, E1. unfold hv_eq; simpl. split; lra.
Qed.

(** ** Pan: the computed bounds *)

Lemma pannedViewport_spec (cw ox : Q) (hv : HorizontalViewport) :
  viewportLength hv < 1 ->
  let p := pannedViewport cw ox hv in
  let unitOffsetX := viewportLength hv * ox / cw in
  0 <= viewportLeft p /\ viewportRight p <= 1 /\
  viewportLength p == viewportLength hv /\
  (viewportLeft hv - unitOffsetX < 0 ->
   viewportLeft p == 0 /\ viewportRight p == viewportLength hv) /\
  (0 <= viewportLeft hv - unitOffsetX ->
   1 < viewportRight hv - unitOffsetX ->
   viewportLeft p == 1 - viewportLength hv /\ viewportRight p == 1) /\
  (0 <= viewportLeft hv - unitOffsetX ->
   viewportRight hv - unitOffsetX <= 1 ->
   viewportLeft p == viewportLeft hv - unitOffsetX /\
   viewportRight p == viewportRight hv - unitOffsetX).
Proof.
  destruct hv as [l r].
  cbv [pannedViewport viewportLength viewportLeft viewportRight].
  set (u := (r - l) * ox / cw). clearbody u. intros Hlen.
  destruct (Qlt_bool (l - u) 0) eqn:E1.
  - apply Qlt_bool_iff in E1.
    destruct (Qlt_bool 1 (r - l)) eqn:E2.
    + apply Qlt_bool_iff in E2. lra.
    + repeat split; intros; lra.
  - apply Qlt_bool_false in E1.
    destruct (Qlt_bool 1 (r - u)) eqn:E2.
    + apply Qlt_bool_iff in E2. repeat split; intros; lra.
    + apply Qlt_bool_false in E2. repeat split; intros; lra.
Qed.

(** The viewport read back from the selection that the pan callback
    returns is the computed one. *)
Lemma moveUpdate_viewport (tr : StartEndRange) (cw ox : Q)
    (props : ViewportProps) (hv : HorizontalViewport) :
  viewportLength hv < 1 ->
  ~ range_end tr - range_start tr == 0 ->
  hv_eq (getHorizontalViewport (moveUpdate tr cw ox props hv) tr)
        (pannedViewport cw ox hv).
Proof.
  intros Hlen H. unfold moveUpdate. fold (viewportLength hv).
  destruct (Qle_bool 1 (viewportLength hv)) eqn:E.
  - apply Qle_bool_iff in E. lra.
  - destruct (pannedViewport cw ox hv) as [pl pr]; simpl.
    apply (getHorizontalViewport_selectionOfViewport tr pl pr H).
Qed.

(** ** What the requests queue *)

Lemma addBatched_pending (callback : Update) (c : Component) :
  _pendingPreviewSelectionUpdates (_addBatchedPreviewSelectionUpdate callback c)
  = _pendingPreviewSelectionUpdates c ++ [callback].
Proof.
  unfold _addBatchedPreviewSelectionUpdate.
  destruct (_pendingPreviewSelectionUpdates c) eqn:E; simpl; rewrite ?E;
    reflexivity.
Qed.

Lemma moveViewport_pending (props : ViewportProps) (ox oy : Q) (c : Component) :
  isSizeSet (state c) = true ->
  disableHorizontalMovement props = false ->
  _pendingPreviewSelectionUpdates (moveViewport props ox oy c)
  = _pendingPreviewSelectionUpdates c
      ++ [moveUpdate (timeRange props) (containerWidth (state c)) ox].
Proof.
  intros Hs Hd. unfold moveViewport. rewrite Hs, Hd; simpl.
  destruct (movedVertical _ _ _ _ _) as [t b].
  rewrite addBatched_pending.
  destruct (Qneq_bool t (viewportTop (state c))); reflexivity.
Qed.

Lemma zoomRangeSelection_pending (props : ViewportProps) (center zf : Q)
    (c : Component) :
  disableHorizontalMovement props = false ->
  _pendingPreviewSelectionUpdates (zoomRangeSelection props center zf c)
  = _pendingPreviewSelectionUpdates c
      ++ [zoomUpdate (maximumZoom props) center zf].
Proof.
  intros Hd. unfold zoomRangeSelection. rewrite Hd.
  apply addBatched_pending.
Qed.

(** ** Pan keeps the window inside the unit interval *)

(** C1, as the code has it in exact arithmetic.  A horizontal pan
    ([moveViewport] with the size set and horizontal movement enabled, on
    a container of non-zero width) queues one callback.  Applied to a
    viewport narrower than 1, the callback returns the selection of
    bounds [l], [r] with [0 <= l], [r <= 1] and [r - l] equal to the width
    before the pan; an offset that would push the left bound below 0
    gives [l = 0] and [r] the old width.  For a time range with
    [start < end], the viewport read back from that selection has the
    same three properties. *)
Theorem moveViewport_pan_in_unit_interval :
  forall (props props' : ViewportProps) (offsetX offsetY : Q)
         (c : Component) (hv : HorizontalViewport),
    isSizeSet (state c) = true ->
    disableHorizontalMovement props = false ->
    ~ containerWidth (state c) == 0 ->
    viewportLength hv < 1 ->
    let update :=
      moveUpdate (timeRange props) (containerWidth (state c)) offsetX in
    let new := pannedViewport (containerWidth (state c)) offsetX hv in
    let unitOffsetX :=
      viewportLength hv * offsetX / containerWidth (state c) in
    _pendingPreviewSelectionUpdates (moveViewport props offsetX offsetY c)
    = _pendingPreviewSelectionUpdates c ++ [update] /\
    update props' hv
    = selectionOfViewport (timeRange props)
        (viewportLeft new) (viewportRight new) /\
    0 <= viewportLeft new /\ viewportRight new <= 1 /\
    viewportLength new == viewportLength hv /\
    (viewportLeft hv - unitOffsetX < 0 ->
     viewportLeft new == 0 /\ viewportRight new == viewportLength hv) /\
    (range_start (timeRange props) < range_end (timeRange props) ->
     let hv' := getHorizontalViewport (update props' hv) (timeRange props) in
     0 <= viewportLeft hv' /\ viewportRight hv' <= 1 /\
     viewportLength hv' == viewportLength hv).
Proof.
  intros props props' ox oy c hv Hs Hd Hw Hlen update new u.
  pose proof (pannedViewport_spec (containerWidth (state c)) ox hv Hlen)
    as (P0 & P1 & P2 & P3 & _).
  fold new in P0, P1, P2, P3. fold u in P3.
  split; [apply moveViewport_pending; assumption |].
  split.
  { unfold update, moveUpdate. fold (viewportLength hv).
    destruct (Qle_bool 1 (viewportLength hv)) eqn:E; [| reflexivity].
    apply Qle_bool_iff in E. lra. }
  repeat (split; [assumption |]).
  intros Hr hv'.
  assert (Hne : ~ range_end (timeRange props) - range_start (timeRange props) == 0)
    by lra.
  pose proof (moveUpdate_viewport (timeRange props)
                (containerWidth (state c)) ox props' hv Hlen Hne) as E.
  fold update in E. fold hv' in E. fold new in E.
  pose proof (viewportLength_hv_eq _ _ E) as El.
  destruct E as [E1 E2]. repeat split; lra.
Qed.

(** The example of the specification: the viewport [[0.25, 0.75]] dragged
    by a whole container width goes to [[0, 0.5]]. *)
Lemma moveViewport_pan_in_unit_interval_witness :
  let new := pannedViewport 1000 1000 (mkHV (1 # 4) (3 # 4)) in
  viewportLeft new == 0 /\ viewportRight new == 1 # 2 /\
  0 <= viewportLeft new /\ viewportRight new <= 1.
Proof.
  destruct (moveViewport_pan_in_unit_interval sampleProps sampleProps
              1000 0 sampleComponent (mkHV (1 # 4) (3 # 4)))
    as (_ & _ & H0 & H1 & _ & H & _).
  - reflexivity.
  - reflexivity.
  - vm_compute. discriminate.
  - vm_compute. reflexivity.
  - assert (H' := H ltac:(vm_compute; reflexivity)).
    destruct H' as [Hl Hr].
    split; [exact Hl |].
    split; [apply (Qeq_trans _ _ _ Hr); reflexivity |].
    split; [exact H0 | exact H1].
Defined.

(** ** Zoom keeps the width between [maximumZoom] and 1 *)

(** C2, as the code has it in exact arithmetic.  [zoomRangeSelection]
    with horizontal movement enabled queues one callback.  With
    [maximumZoom <= 1], the bounds the callback computes have a width
    equal to the old width times the zoom factor clamped to
    [[maximumZoom, 1]], hence at least [maximumZoom] and at most 1, and so
    has the viewport read back from the selection it returns (for a time
    range with [start < end]). *)
Theorem zoomRangeSelection_width_bounds :
  forall (props props' : ViewportProps) (center zoomFactor : Q)
         (c : Component) (hv : HorizontalViewport),
    disableHorizontalMovement props = false ->
    maximumZoom props <= 1 ->
    let update := zoomUpdate (maximumZoom props) center zoomFactor in
    let new := zoomedViewport (maximumZoom props) center zoomFactor hv in
    _pendingPreviewSelectionUpdates
      (zoomRangeSelection props center zoomFactor c)
    = _pendingPreviewSelectionUpdates c ++ [update] /\
    viewportLength new
    == clamp (maximumZoom props) 1 (viewportLength hv * zoomFactor) /\
    maximumZoom props <= viewportLength new /\
    viewportLength new <= 1 /\
    (range_start (timeRange props') < range_end (timeRange props') ->
     let hv' := getHorizontalViewport (update props' hv) (timeRange props') in
     maximumZoom props <= viewportLength hv' /\ viewportLength hv' <= 1).
Proof.
  intros props props' center zf c hv Hd Hmz update new.
  pose proof (zoomedViewport_spec (maximumZoom props) center zf hv Hmz)
    as (Z0 & Z1 & _ & _ & Z4).
  fold new in Z4.
  split; [apply zoomRangeSelection_pending; exact Hd |].
  split; [exact Z4 |].
  split; [lra |]. split; [lra |].
  intros Hr hv'.
  assert (Hne : ~ range_end (timeRange props') - range_start (timeRange props') == 0)
    by lra.
  pose proof (zoomUpdate_viewport (maximumZoom props) center zf props' hv Hne)
    as E.
  apply viewportLength_hv_eq in E. fold update in E. fold hv' in E.
  fold new in E. split; lra.
Qed.

(** The example of the specification: the full view zoomed by 0.5 around
    its middle becomes [[0.25, 0.75]]. *)
Lemma zoomRangeSelection_width_bounds_witness :
  let new := zoomedViewport (1 # 100) (1 # 2) (1 # 2) (mkHV 0 1) in
  (1 # 100) <= viewportLength new /\ viewportLength new <= 1 /\
  hv_eq new (mkHV (1 # 4) (3 # 4)).
Proof.
  destruct (zoomRangeSelection_width_bounds sampleProps sampleProps
              (1 # 2) (1 # 2) sampleComponent (mkHV 0 1))
    as (_ & _ & H0 & H1 & _).
  - reflexivity.
  - vm_compute. discriminate.
  - split; [exact H0 |]. split; [exact H1 |].
    split; vm_compute; reflexivity.
Defined.

(** ** Zoom and its anchor *)

(** C3, as the code has it.  When the zoomed window anchored at [center]
    stays inside the unit interval, that is
    [0 <= viewportLeft - delta * center <= 1 - newLength] with
    [newLength = clamp(maximumZoom, 1, length * zoomFactor)] and
    [delta = newLength - length], the unit-interval position of the anchor
    is the same before and after the zoom, both for the bounds the
    callback computes and for the viewport read back from its selection. *)
Theorem zoomRangeSelection_anchor_fixed :
  forall (props : ViewportProps) (maximumZoom center zoomFactor : Q)
         (hv : HorizontalViewport),
    let newLength := clamp maximumZoom 1 (viewportLength hv * zoomFactor) in
    let delta := newLength - viewportLength hv in
    0 <= viewportLeft hv - delta * center ->
    viewportLeft hv - delta * center <= 1 - newLength ->
    let new := zoomedViewport maximumZoom center zoomFactor hv in
    anchorPosition new center == anchorPosition hv center /\
    (range_start (timeRange props) < range_end (timeRange props) ->
     let hv' :=
       getHorizontalViewport
         (zoomUpdate maximumZoom center zoomFactor props hv)
         (timeRange props) in
     anchorPosition hv' center == anchorPosition hv center).
Proof.
  intros props mz center zf hv newLength delta H0 H1 new.
  assert (Hnew : viewportLeft new == viewportLeft hv - delta * center /\
                 viewportRight new == viewportLeft new + newLength).
  { unfold new, zoomedViewport; simpl.
    fold (viewportLength hv). fold newLength. fold delta.
    assert (He : delta * (1 - center) == delta - delta * center) by ring.
    assert (Hdd : delta == newLength - viewportLength hv) by reflexivity.
    assert (Hl : viewportLength hv == viewportRight hv - viewportLeft hv)
      by reflexivity.
    set (e := delta * (1 - center)) in *.
    set (dc := delta * center) in *.
    clearbody e dc delta newLength.
    generalize dependent (viewportLength hv). intros len Hdd Hl.
    destruct hv as [l r]; simpl in *.
    destruct (clamp_cases 0 (1 - newLength) (l - dc)) as [C | [C | [C | C]]];
      destruct (clamp_cases newLength 1 (r + e)) as [D | [D | [D | D]]];
      split; lra. }
  destruct Hnew as [Hl Hr].
  assert (Ha : anchorPosition new center == anchorPosition hv center).
  { unfold anchorPosition. rewrite Hr, Hl.
    unfold delta, viewportLength. ring. }
  split; [exact Ha |].
  intros Hrange hv'.
  assert (Hne : ~ range_end (timeRange props) - range_start (timeRange props) == 0)
    by lra.
  pose proof (zoomUpdate_viewport mz center zf props hv Hne) as [E1 E2].
  fold hv' in E1, E2. fold new in E1, E2.
  rewrite <- Ha. unfold anchorPosition. rewrite E1, E2. reflexivity.
Qed.

Lemma zoomRangeSelection_anchor_fixed_witness :
  anchorPosition (zoomedViewport (1 # 100) (1 # 2) (1 # 2) (mkHV 0 1)) (1 # 2)
  == anchorPosition (mkHV 0 1) (1 # 2).
Proof.
  destruct (zoomRangeSelection_anchor_fixed sampleProps
              (1 # 100) (1 # 2) (1 # 2) (mkHV 0 1)) as [H _].
  - vm_compute. discriminate.
  - vm_compute. discriminate.
  - exact H.
Defined.

(** C3 as stated fails at an edge: the window [[0, 0.25]] zoomed out by 2
    around its middle would start at -0.125; the clamp moves it to
    [[0, 0.5]], and the anchor goes from 0.125 to 0.25. *)
Lemma zoomRangeSelection_anchor_moves_at_edge :
  let hv := mkHV 0 (1 # 4) in
  let center := 1 # 2 in
  let hv' :=
    getHorizontalViewport (zoomUpdate (1 # 100) center 2 sampleProps hv)
                          (timeRange sampleProps) in
  valid_horizontal hv /\ 0 <= center /\ center <= 1 /\
  hv_eq hv' (mkHV 0 (1 # 2)) /\
  anchorPosition hv center == 1 # 8 /\
  anchorPosition hv' center == 1 # 4 /\
  ~ anchorPosition hv' center == anchorPosition hv center.
Proof.
  repeat split; try (vm_compute; reflexivity); try (vm_compute; discriminate).
Qed.

(** ** Full width clears the selection *)

Lemma hasSelection_selectionOfViewport (tr : StartEndRange) (l r : Q) :
  hasSelection (selectionOfViewport tr l r) = true.
Proof. reflexivity. Qed.



(** ** Vertical pan *)

Lemma addBatched_state (callback : Update) (c : Component) :
  state (_addBatchedPreviewSelectionUpdate callback c) = state c.
Proof.
  unfold _addBatchedPreviewSelectionUpdate.
  destruct (_pendingPreviewSelectionUpdates c); reflexivity.
Qed.

Lemma movedVertical_spec (maxH : Q) (atBottom : bool) (h top oy : Q) :
  let t := fst (movedVertical maxH atBottom h top oy) in
  let b := snd (movedVertical maxH atBottom h top oy) in
  b - t == h /\
  (h <= maxH -> 0 <= t /\ b <= maxH) /\
  (maxH < h -> atBottom = true -> t == maxH - h /\ b == maxH) /\
  (maxH < h -> atBottom = false -> t == 0 /\ b == h).
Proof.
  unfold movedVertical.
  destruct (Qlt_bool maxH h) eqn:E1.
  - apply Qlt_bool_iff in E1.
    destruct atBottom; simpl; repeat split; intros; try discriminate; lra.
  - apply Qlt_bool_false in E1.
    destruct (Qlt_bool maxH (top - oy + h)) eqn:E2.
    + apply Qlt_bool_iff in E2. simpl. repeat split; intros; lra.
    + apply Qlt_bool_false in E2.
      destruct (Qlt_bool (top - oy) 0) eqn:E3.
      * apply Qlt_bool_iff in E3. simpl. repeat split; intros; lra.
      * apply Qlt_bool_false in E3. simpl. repeat split; intros; lra.
Qed.

(** The state after [moveViewport]: the size fields are untouched, the
    top is the computed one, and so is the bottom when the state it
    started from had [bottom - top == containerHeight]. *)
Lemma moveViewport_state (props : ViewportProps) (ox oy : Q) (c : Component) :
  isSizeSet (state c) = true ->
  let st := state c in
  let st' := state (moveViewport props ox oy c) in
  let tb := movedVertical (maxViewportHeight props) (startsAtBottom props)
              (containerHeight st) (viewportTop st) oy in
  containerHeight st' = containerHeight st /\
  isSizeSet st' = true /\
  viewportTop st' == fst tb /\
  (viewportBottom st - viewportTop st == containerHeight st ->
   viewportBottom st' == snd tb).
Proof.
  intros Hs st st' tb.
  pose proof (movedVertical_spec (maxViewportHeight props)
                (startsAtBottom props) (containerHeight st) (viewportTop st) oy)
    as [Hd _].
  fold tb in Hd.
  unfold st', moveViewport. rewrite Hs; simpl. fold st. fold tb.
  destruct tb as [t b]; simpl in *.
  assert (Hc : forall c1, state c1 =
            state (if negb (disableHorizontalMovement props)
                   then _addBatchedPreviewSelectionUpdate
                          (moveUpdate (timeRange props) (containerWidth st) ox) c1
                   else c1)).
  { intros c1. destruct (negb (disableHorizontalMovement props));
      [rewrite addBatched_state |]; reflexivity. }
  rewrite <- Hc.
  destruct (Qneq_bool t (viewportTop st)) eqn:E; simpl.
  - repeat split; try reflexivity. exact Hs.
  - apply Qneq_bool_false in E. fold st.
    repeat split; try reflexivity; try exact Hs.
    + rewrite E. reflexivity.
    + intros Hinv. lra.
Qed.




(** ** The viewport invariant *)

Lemma getHorizontalViewport_valid (tr : StartEndRange) (m : bool) (s e : Q) :
  range_start tr < range_end tr ->
  range_start tr <= s -> s < e -> e <= range_end tr ->
  valid_horizontal (getHorizontalViewport (Selection m s e) tr).
Proof.
  intros Hr H0 H1 H2. unfold valid_horizontal; simpl.
  set (len := range_end tr - range_start tr).
  assert (Hlen : 0 < len) by (unfold len; lra).
  split; [| split].
  - apply Qle_shift_div_l; [exact Hlen | lra].
  - apply Qlt_shift_div_l; [exact Hlen |].
    unfold Qdiv. rewrite <- Qmult_assoc, (Qmult_comm (/ len)),
      Qmult_inv_r, Qmult_1_r by lra. lra.
  - apply Qle_shift_div_r; [exact Hlen | unfold len; lra].
Qed.

Lemma valid_horizontal_hv_eq (a b : HorizontalViewport) :
  hv_eq a b -> valid_horizontal b -> valid_horizontal a.
Proof.
  unfold hv_eq, valid_horizontal. intros [E1 E2] (H0 & H1 & H2).
  repeat split; lra.
Qed.

Lemma zoomUpdate_valid (props : ViewportProps) (mz center zf : Q)
    (hv : HorizontalViewport) :
  range_start (timeRange props) < range_end (timeRange props) ->
  0 < mz -> mz <= 1 ->
  valid_horizontal
    (getHorizontalViewport (zoomUpdate mz center zf props hv) (timeRange props)).
Proof.
  intros Hr H0 H1.
  apply (valid_horizontal_hv_eq _ (zoomedViewport mz center zf hv)).
  - apply zoomUpdate_viewport. lra.
  - pose proof (zoomedViewport_spec mz center zf hv H1) as (Z0 & _ & Z2 & Z3 & Z4).
    unfold valid_horizontal, viewportLength in *. repeat split; lra.
Qed.

Lemma moveUpdate_valid (props : ViewportProps) (tr : StartEndRange)
    (cw ox : Q) (hv : HorizontalViewport) :
  range_start tr < range_end tr ->
  valid_horizontal hv ->
  valid_horizontal (getHorizontalViewport (moveUpdate tr cw ox props hv) tr).
Proof.
  intros Hr (H0 & H1 & H2).
  destruct (Qlt_le_dec (viewportLength hv) 1) as [L | L].
  - apply (valid_horizontal_hv_eq _ (pannedViewport cw ox hv)).
    + apply moveUpdate_viewport; [exact L | lra].
    + pose proof (pannedViewport_spec cw ox hv L) as (P0 & P1 & P2 & _).
      unfold valid_horizontal, viewportLength in *. repeat split; lra.
  - unfold moveUpdate. fold (viewportLength hv).
    apply Qle_bool_iff in L. rewrite L. simpl.
    unfold valid_horizontal; simpl. repeat split; lra.
Qed.

Lemma flushLoop_preserves (props : ViewportProps) (P : PreviewSelection -> Prop)
    (updates : list Update) :
  Forall (fun u : Update =>
            forall sel, P sel ->
              P (u props (getHorizontalViewport sel (timeRange props))))
         updates ->
  forall sel, P sel -> P (flushLoop props updates sel).
Proof.
  induction 1 as [| u rest Hu _ IH]; intros sel Hsel; simpl.
  - exact Hsel.
  - apply IH. apply Hu. exact Hsel.
Qed.

Lemma setSize_vertical_sized (props : ViewportProps) (rect : Rect)
    (c : Component) :
  vertical_sized (state c) -> vertical_sized (state (_setSize props rect c)).
Proof.
  intros H. unfold _setSize.
  destruct (Qneq_bool (containerWidth (state c)) (rect_width rect)
            || Qneq_bool (containerHeight (state c)) (rect_height rect));
    [| exact H].
  unfold vertical_sized; simpl. intros _.
  destruct (startsAtBottom props); ring.
Qed.

Lemma moveViewport_vertical_sized (props : ViewportProps) (ox oy : Q)
    (c : Component) :
  vertical_sized (state c) ->
  vertical_sized (state (moveViewport props ox oy c)).
Proof.
  intros H.
  destruct (isSizeSet (state c)) eqn:Hs.
  - intros _.
    pose proof (moveViewport_state props ox oy c Hs) as (Hh & _ & Ht & Hb).
    specialize (Hb (H Hs)).
    pose proof (movedVertical_spec (maxViewportHeight props)
                  (startsAtBottom props) (containerHeight (state c))
                  (viewportTop (state c)) oy) as (Hd & _).
    rewrite Hh. lra.
  - unfold moveViewport. rewrite Hs. exact H.
Qed.

(** C4, as the code has it in exact arithmetic.  For a time range with
    [start < end], the same when a pan is requested and when it is
    flushed, and [0 < maximumZoom <= 1], the horizontal invariant
    [0 <= viewportLeft < viewportRight <= 1] holds for the viewport
    computed from no selection and from a selection that lies inside the
    time range with [selectionStart < selectionEnd]; it holds for the
    viewport read back from the result of every zoom callback, of every
    pan callback applied to a viewport that satisfies it (container of
    non-zero width), and of a flush of any queue of callbacks that
    preserve it.  The vertical invariant ([bottom - top] is
    [containerHeight] once the size is set) holds in the default state and
    is preserved by [_setSize], [moveViewport], [zoomRangeSelection] and
    [UNSAFE_componentWillReceiveProps], which, when the chart, the
    selection or the time range changed, stores the viewport computed
    from the new props. *)
Theorem viewport_invariant_preserved :
  forall props : ViewportProps,
    range_start (timeRange props) < range_end (timeRange props) ->
    0 < maximumZoom props ->
    maximumZoom props <= 1 ->
    let tr := timeRange props in
    let ok := fun sel => valid_horizontal (getHorizontalViewport sel tr) in
    (forall m, ok (NoSelection m)) /\
    (forall m s e,
        range_start tr <= s -> s < e -> e <= range_end tr ->
        ok (Selection m s e)) /\
    (forall hv center zoomFactor,
        ok (zoomUpdate (maximumZoom props) center zoomFactor props hv)) /\
    (forall hv containerWidth offsetX,
        valid_horizontal hv -> ~ containerWidth == 0 ->
        ok (moveUpdate tr containerWidth offsetX props hv)) /\
    (forall updates,
        Forall (fun u : Update =>
                  forall hv, valid_horizontal hv -> ok (u props hv)) updates ->
        ok (previewSelection props) ->
        ok (flushLoop props updates (previewSelection props))) /\
    vertical_sized (getDefaultState props) /\
    (forall rect c,
        vertical_sized (state c) ->
        vertical_sized (state (_setSize props rect c))) /\
    (forall offsetX offsetY c,
        vertical_sized (state c) ->
        vertical_sized (state (moveViewport props offsetX offsetY c))) /\
    (forall center zoomFactor c,
        vertical_sized (state c) ->
        vertical_sized (state (zoomRangeSelection props center zoomFactor c))) /\
    (forall needsUpdate changed layoutChanged c,
        let c' := UNSAFE_componentWillReceiveProps
                    needsUpdate changed layoutChanged props c in
        (vertical_sized (state c) -> vertical_sized (state c')) /\
        (needsUpdate || changed = true ->
         horizontalViewport (state c')
         = getHorizontalViewport (previewSelection props) tr)).
Proof.
  intros props Hr Hz0 Hz1 tr ok.
  split; [| split; [| split; [| split; [| split; [| split; [| split; [| split; [| split]]]]]]]].
  - intros m. unfold ok, valid_horizontal; simpl. repeat split; lra.
  - intros m s e H0 H1 H2. apply getHorizontalViewport_valid; assumption.
  - intros hv center zf. apply zoomUpdate_valid; assumption.
  - intros hv cw ox Hv _. apply moveUpdate_valid; assumption.
  - intros updates Hall Hsel.
    apply (flushLoop_preserves props ok); [| exact Hsel].
    apply Forall_impl with (2 := Hall).
    intros u Hu sel Hok. apply Hu. exact Hok.
  - unfold vertical_sized; simpl. discriminate.
  - intros rect c. apply setSize_vertical_sized.
  - intros ox oy c. apply moveViewport_vertical_sized.
  - intros center zf c H. unfold zoomRangeSelection.
    destruct (disableHorizontalMovement props);
      [| rewrite addBatched_state]; exact H.
  - intros needsUpdate changed layoutChanged c c'.
    unfold c', UNSAFE_componentWillReceiveProps.
    destruct needsUpdate; [| destruct changed; [| destruct layoutChanged]];
      simpl; split; try discriminate; try reflexivity; try (intros H; exact H).
Qed.

(** On the sample chart: the viewport after a zoom and then a pan queued
    in one frame is inside the unit interval. *)
Lemma viewport_invariant_preserved_witness :
  valid_horizontal
    (getHorizontalViewport
       (flushLoop sampleProps
          [zoomUpdate (1 # 100) (1 # 2) (1 # 2); moveUpdate (mkRange 0 10) 1000 30]
          (NoSelection false))
       (mkRange 0 10)).
Proof.
  destruct (viewport_invariant_preserved sampleProps)
    as (_ & _ & Hzoom & Hmove & Hflush & _).
  - vm_compute. reflexivity.
  - vm_compute. reflexivity.
  - vm_compute. discriminate.
  - apply Hflush.
    + constructor; [| constructor; [| constructor]].
      * intros hv _. apply Hzoom.
      * intros hv Hv. apply Hmove; [exact Hv | vm_compute; discriminate].
    + simpl. unfold valid_horizontal; simpl.
      repeat split; vm_compute; (reflexivity || discriminate).
Defined.

(** ** Batching *)

Lemma flushLoop_fold_left (props : ViewportProps) (updates : list Update)
    (sel : PreviewSelection) :
  flushLoop props updates sel
  = fold_left
      (fun s (u : Update) => u props (getHorizontalViewport s (timeRange props)))
      updates sel.
Proof.
  revert sel. induction updates as [| u rest IH]; intros sel; simpl.
  - reflexivity.
  - apply IH.
Qed.

Lemma flushLoop_snoc (props : ViewportProps) (updates : list Update)
    (u : Update) (sel : PreviewSelection) :
  flushLoop props (updates ++ [u]) sel
  = u props (getHorizontalViewport (flushLoop props updates sel)
                                   (timeRange props)).
Proof.
  revert sel. induction updates as [| v rest IH]; intros sel; simpl.
  - reflexivity.
  - apply IH.
Qed.

Lemma addBatched_frames (callback : Update) (c : Component) :
  requestedFrames (_addBatchedPreviewSelectionUpdate callback c)
  = match _pendingPreviewSelectionUpdates c with
    | [] => requestedFrames c ++ [FlushFrame]
    | _ :: _ => requestedFrames c
    end.
Proof.
  unfold _addBatchedPreviewSelectionUpdate.
  destruct (_pendingPreviewSelectionUpdates c); reflexivity.
Qed.

Lemma addBatched_dispatched (callback : Update) (c : Component) :
  dispatched (_addBatchedPreviewSelectionUpdate callback c) = dispatched c.
Proof.
  unfold _addBatchedPreviewSelectionUpdate.
  destruct (_pendingPreviewSelectionUpdates c); reflexivity.
Qed.

(** Queueing a batch on top of a non-empty queue requests no frame. *)
Lemma addBatched_batch_nonempty (updates : list Update) (c : Component) :
  _pendingPreviewSelectionUpdates c <> [] ->
  let c1 := fold_left (fun c u => _addBatchedPreviewSelectionUpdate u c)
                      updates c in
  requestedFrames c1 = requestedFrames c /\
  _pendingPreviewSelectionUpdates c1
  = _pendingPreviewSelectionUpdates c ++ updates /\
  dispatched c1 = dispatched c.
Proof.
  revert c. induction updates as [| u rest IH]; intros c Hne; simpl.
  - rewrite app_nil_r. repeat split.
  - assert (Hne' : _pendingPreviewSelectionUpdates
                     (_addBatchedPreviewSelectionUpdate u c) <> []).
    { rewrite addBatched_pending.
      destruct (_pendingPreviewSelectionUpdates c); discriminate. }
    destruct (IH _ Hne') as (F & P & D).
    rewrite F, P, D, addBatched_frames, addBatched_pending, addBatched_dispatched.
    destruct (_pendingPreviewSelectionUpdates c) as [| v l] eqn:E;
      [contradiction |].
    rewrite <- app_assoc. repeat split.
Qed.

Lemma countFrames_app (f : FrameCallback) (c : Component)
    (l : list FrameCallback) :
  List.length (filter (FrameCallback_eqb f) (requestedFrames c ++ l))
  = (countFrames f c + List.length (filter (FrameCallback_eqb f) l))%nat.
Proof.
  unfold countFrames. rewrite filter_app, length_app. reflexivity.
Qed.

(** The frames requested and the updates dispatched by a request. *)
Lemma addBatched_counts (callback : Update) (c : Component) :
  let c' := _addBatchedPreviewSelectionUpdate callback c in
  (countFrames FlushFrame c' + outstandingFlushFrames c
   = countFrames FlushFrame c + 1)%nat /\
  outstandingFlushFrames c' = 1%nat /\
  dispatched c' = dispatched c.
Proof.
  cbv zeta. split; [| split].
  - unfold countFrames at 1. rewrite addBatched_frames.
    unfold outstandingFlushFrames.
    destruct (_pendingPreviewSelectionUpdates c).
    + rewrite countFrames_app. simpl. lia.
    + fold (countFrames FlushFrame c). lia.
  - unfold outstandingFlushFrames. rewrite addBatched_pending.
    destruct (_pendingPreviewSelectionUpdates c); reflexivity.
  - apply addBatched_dispatched.
Qed.

Lemma batching_invariant (c0 c : Component) (n : nat) :
  _pendingPreviewSelectionUpdates c0 = [] ->
  requestedFrames c0 = [] ->
  dispatched c0 = [] ->
  batching c0 c n ->
  List.length (dispatched c) = n /\
  countFrames FlushFrame c = (n + outstandingFlushFrames c)%nat.
Proof.
  intros Hp Hf Hd Hb.
  induction Hb as [| c n props ox oy Hb [IH1 IH2]
                   | c n props center zf Hb [IH1 IH2]
                   | c n props Hb [IH1 IH2] Hlt].
  - unfold countFrames, outstandingFlushFrames. rewrite Hp, Hf, Hd.
    split; reflexivity.
  - unfold moveViewport.
    destruct (negb (isSizeSet (state c))); [split; assumption |].
    destruct (movedVertical _ _ _ _ _) as [t b].
    set (c1 := if Qneq_bool t (viewportTop (state c)) then _ else c).
    assert (H1 : dispatched c1 = dispatched c /\
                 countFrames FlushFrame c1 = countFrames FlushFrame c /\
                 outstandingFlushFrames c1 = outstandingFlushFrames c).
    { unfold c1. destruct (Qneq_bool t (viewportTop (state c)));
        repeat split. }
    destruct H1 as (D1 & F1 & O1).
    destruct (negb (disableHorizontalMovement props)).
    + destruct (addBatched_counts
                  (moveUpdate (timeRange props) (containerWidth (state c)) ox) c1)
        as (A & B & D).
      rewrite D, D1, B. split; [exact IH1 | lia].
    + rewrite D1, F1, O1. split; assumption.
  - unfold zoomRangeSelection.
    destruct (disableHorizontalMovement props); [split; assumption |].
    destruct (addBatched_counts
                (zoomUpdate (maximumZoom props) center zf) c) as (A & B & D).
    rewrite D, B. split; [exact IH1 | lia].
  - unfold _flushPendingPreviewSelectionUpdates.
    unfold outstandingFlushFrames in IH2.
    destruct (_pendingPreviewSelectionUpdates c) as [| u l] eqn:E; [lia |].
    unfold outstandingFlushFrames, countFrames; simpl.
    fold (countFrames FlushFrame c).
    rewrite length_app; simpl. lia.
Qed.

(** C7.  Queueing one or more callbacks on an empty queue requests exactly
    one flush frame.  The flush empties the queue and makes exactly one
    [updatePreviewSelection] call, with the queue folded from the left in
    submission order, starting from the current preview selection, each
    callback receiving the viewport read back from the selection returned
    by the one before it.  Over any sequence of pan requests, zoom requests
    and flush frames of a new component, the number of
    [updatePreviewSelection] calls is the number of flush frames run, and
    at most one flush frame is outstanding. *)
Theorem flush_folds_in_order_and_dispatches_once :
  forall (props : ViewportProps) (c : Component)
         (first : Update) (others : list Update),
    _pendingPreviewSelectionUpdates c = [] ->
    let updates := first :: others in
    let c1 := fold_left (fun c u => _addBatchedPreviewSelectionUpdate u c)
                        updates c in
    let c2 := _flushPendingPreviewSelectionUpdates props c1 in
    requestedFrames c1 = requestedFrames c ++ [FlushFrame] /\
    _pendingPreviewSelectionUpdates c1 = updates /\
    dispatched c2
    = dispatched c
        ++ [fold_left
              (fun sel (u : Update) =>
                 u props (getHorizontalViewport sel (timeRange props)))
              updates (previewSelection props)] /\
    _pendingPreviewSelectionUpdates c2 = [] /\
    requestedFrames c2 = requestedFrames c1 /\
    (forall (u : Update) (sel : PreviewSelection),
        flushLoop props (updates ++ [u]) sel
        = u props (getHorizontalViewport (flushLoop props updates sel)
                                         (timeRange props))) /\
    (forall (c' : Component) (n : nat),
        batching (newComponent props) c' n ->
        List.length (dispatched c') = n /\
        countFrames FlushFrame c' = (n + outstandingFlushFrames c')%nat /\
        (outstandingFlushFrames c' <= 1)%nat).
Proof.
  intros props c first others Hp updates c1 c2.
  assert (H1 : requestedFrames c1 = requestedFrames c ++ [FlushFrame] /\
               _pendingPreviewSelectionUpdates c1 = updates /\
               dispatched c1 = dispatched c).
  { unfold c1, updates; simpl.
    set (c0 := _addBatchedPreviewSelectionUpdate first c).
    assert (Hne : _pendingPreviewSelectionUpdates c0 <> []).
    { unfold c0. rewrite addBatched_pending, Hp. discriminate. }
    destruct (addBatched_batch_nonempty others c0 Hne) as (F & P & D).
    rewrite F, P, D. unfold c0.
    rewrite addBatched_frames, addBatched_pending, addBatched_dispatched, Hp.
    repeat split. }
  destruct H1 as (F1 & P1 & D1).
  split; [exact F1 |]. split; [exact P1 |].
  assert (H2 : c2 = updatePreviewSelection
                      (flushLoop props updates (previewSelection props))
                      (setPending [] c1)).
  { unfold c2, _flushPendingPreviewSelectionUpdates. rewrite P1. reflexivity. }
  split; [| split; [| split; [| split]]].
  - rewrite H2; simpl. rewrite D1, flushLoop_fold_left. reflexivity.
  - rewrite H2. reflexivity.
  - rewrite H2. reflexivity.
  - intros u sel. apply flushLoop_snoc.
  - intros c' n Hb.
    destruct (batching_invariant (newComponent props) c' n) as [I1 I2];
      try reflexivity; try exact Hb.
    split; [exact I1 |]. split; [exact I2 |].
    unfold outstandingFlushFrames.
    destruct (_pendingPreviewSelectionUpdates c'); lia.
Qed.

(** A zoom and a pan queued in one frame on the sample chart are flushed
    by one call, whose argument is the pan applied to the zoomed view. *)
Lemma flush_folds_in_order_and_dispatches_once_witness :
  let c1 := moveViewport sampleProps 30 0
              (zoomRangeSelection sampleProps (1 # 2) (1 # 2) sampleComponent) in
  let c2 := _flushPendingPreviewSelectionUpdates sampleProps c1 in
  requestedFrames c1 = [FlushFrame] /\
  dispatched c2
  = [moveUpdate (mkRange 0 10) 1000 30 sampleProps
       (getHorizontalViewport
          (zoomUpdate (1 # 100) (1 # 2) (1 # 2) sampleProps
             (getHorizontalViewport (NoSelection false) (mkRange 0 10)))
          (mkRange 0 10))].
Proof.
  destruct (flush_folds_in_order_and_dispatches_once sampleProps
              sampleComponent (zoomUpdate (1 # 100) (1 # 2) (1 # 2))
              [moveUpdate (mkRange 0 10) 1000 30])
    as (F & _ & D & _).
  - reflexivity.
  - split; [exact F | exact D].
Defined.

(** ** Keyboard navigation *)

Lemma keyboardDelta_spec (timestamp lastFrame : Q) :
  let elapsedSeconds := (timestamp - lastFrame) / 1000 in
  keyboardDelta timestamp lastFrame == Qmin (2000 * elapsedSeconds) 500 /\
  keyboardDelta timestamp lastFrame <= 500 /\
  (lastFrame <= timestamp -> 0 <= keyboardDelta timestamp lastFrame).
Proof.
  intros s. unfold keyboardDelta, KEYBOARD_NAVIGATION_SPEED, MAX_KEYBOARD_DELTA.
  assert (E : 2000 * (timestamp - lastFrame) * (1 # 1000) == 2000 * s)
    by (unfold s; field).
  set (a := 2000 * (timestamp - lastFrame) * (1 # 1000)) in *.
  assert (Hs : lastFrame <= timestamp -> 0 <= a) by (unfold a; intros; lra).
  clearbody a s.
  destruct (Q.min_spec a 500) as [[H1 E1] | [H1 E1]];
    destruct (Q.min_spec (2000 * s) 500) as [[H2 E2] | [H2 E2]];
    rewrite E1, E2;
    (split; [lra | split; [lra | intros H; specialize (Hs H); lra]]).
Qed.

Lemma callDistance_navigationCall (key : NavigationKey) (delta : Q) :
  callDistance (navigationCall key delta) == Qabs delta.
Proof.
  destruct key; cbn [callDistance navigationCall]; rewrite ?Qabs_opp;
    try reflexivity; change (Qabs 0) with 0; ring.
Qed.

Lemma addBatched_keyboard (callback : Update) (c : Component) :
  let c' := _addBatchedPreviewSelectionUpdate callback c in
  countFrames KeyboardFrame c' = countFrames KeyboardFrame c /\
  _keysDown c' = _keysDown c /\
  _lastKeyboardNavigationFrame c' = _lastKeyboardNavigationFrame c.
Proof.
  cbv zeta. unfold countFrames. rewrite addBatched_frames.
  unfold _addBatchedPreviewSelectionUpdate.
  destruct (_pendingPreviewSelectionUpdates c); simpl;
    rewrite ?filter_app, ?length_app; simpl; repeat split; lia.
Qed.

Section KeyboardNavigationFacts.

Variable Math_pow : Q -> Q -> Q.
Variable props : ViewportProps.

Lemma performCall_keyboard (call : NavigationCall) (c : Component) :
  let c' := performCall Math_pow props call c in
  countFrames KeyboardFrame c' = countFrames KeyboardFrame c /\
  _keysDown c' = _keysDown c /\
  _lastKeyboardNavigationFrame c' = _lastKeyboardNavigationFrame c.
Proof.
  destruct call as [center exponent | ox oy]; simpl.
  - unfold zoomRangeSelection.
    destruct (disableHorizontalMovement props);
      [repeat split | apply addBatched_keyboard].
  - unfold moveViewport.
    destruct (negb (isSizeSet (state c))); [repeat split |].
    destruct (movedVertical _ _ _ _ _) as [t b].
    set (c1 := if Qneq_bool t (viewportTop (state c)) then _ else c).
    assert (H1 : countFrames KeyboardFrame c1 = countFrames KeyboardFrame c /\
                 _keysDown c1 = _keysDown c /\
                 _lastKeyboardNavigationFrame c1
                 = _lastKeyboardNavigationFrame c).
    { unfold c1. destruct (Qneq_bool t (viewportTop (state c)));
        repeat split. }
    destruct H1 as (F1 & K1 & L1).
    destruct (negb (disableHorizontalMovement props)).
    + destruct (addBatched_keyboard
                  (moveUpdate (timeRange props) (containerWidth (state c)) ox) c1)
        as (F & K & L).
      rewrite F, K, L. repeat split; assumption.
    + repeat split; assumption.
Qed.

Lemma navigationLoop_fold_left (delta : Q) (keys : list NavigationKey)
    (c : Component) :
  navigationLoop Math_pow props delta keys c
  = fold_left
      (fun c k => performCall Math_pow props (navigationCall k delta) c)
      keys c.
Proof.
  revert c. induction keys as [| k rest IH]; intros c; simpl.
  - reflexivity.
  - apply IH.
Qed.

Lemma navigationLoop_keyboard (delta : Q) (keys : list NavigationKey)
    (c : Component) :
  let c' := navigationLoop Math_pow props delta keys c in
  countFrames KeyboardFrame c' = countFrames KeyboardFrame c /\
  _keysDown c' = _keysDown c /\
  _lastKeyboardNavigationFrame c' = _lastKeyboardNavigationFrame c.
Proof.
  revert c. induction keys as [| k rest IH]; intros c; simpl.
  - repeat split.
  - destruct (IH (performCall Math_pow props (navigationCall k delta) c))
      as (F & K & L).
    destruct (performCall_keyboard (navigationCall k delta) c) as (F' & K' & L').
    rewrite F, K, L. repeat split; assumption.
Qed.

End KeyboardNavigationFacts.

(** C8.  In a navigation frame with a key down, the delta is the minimum
    of 2000 pixels per second times the seconds elapsed since the previous
    frame and 500 pixels, so it is at most 500 (and at least 0 when time
    did not go backwards); the frame makes one call per pressed key, in
    the order the keys went down, each moving or zooming by exactly that
    delta, and records the timestamp. *)
Theorem keyboardNavigation_delta_capped :
  forall (Math_pow : Q -> Q -> Q) (props : ViewportProps) (timestamp : Q)
         (c : Component) (key : NavigationKey) (others : list NavigationKey),
    _keysDown c = key :: others ->
    let lastFrame := _lastKeyboardNavigationFrame c in
    let elapsedSeconds := (timestamp - lastFrame) / 1000 in
    let delta := keyboardDelta timestamp lastFrame in
    let c' := _keyboardNavigation Math_pow props timestamp c in
    delta == Qmin (2000 * elapsedSeconds) 500 /\
    delta <= 500 /\
    (lastFrame <= timestamp -> 0 <= delta) /\
    c' = requestAnimationFrame KeyboardFrame
           (fold_left
              (fun c k => performCall Math_pow props (navigationCall k delta) c)
              (key :: others) (setLastFrame timestamp c)) /\
    Forall (fun k => callDistance (navigationCall k delta) == Qabs delta)
           (key :: others) /\
    _lastKeyboardNavigationFrame c' = timestamp.
Proof.
  intros Math_pow props timestamp c key others Hk lastFrame s delta c'.
  destruct (keyboardDelta_spec timestamp lastFrame) as (D1 & D2 & D3).
  split; [exact D1 |]. split; [exact D2 |]. split; [exact D3 |].
  assert (Hc : c' = requestAnimationFrame KeyboardFrame
                      (navigationLoop Math_pow props delta (key :: others)
                                      (setLastFrame timestamp c))).
  { unfold c', _keyboardNavigation. rewrite Hk. reflexivity. }
  split; [| split].
  - rewrite Hc, navigationLoop_fold_left. reflexivity.
  - apply Forall_forall. intros k _. apply callDistance_navigationCall.
  - rewrite Hc.
    destruct (navigationLoop_keyboard Math_pow props delta (key :: others)
                (setLastFrame timestamp c)) as (_ & _ & L).
    unfold requestAnimationFrame; simpl in *. exact L.
Qed.

(** A frame that comes a whole second after the key went down moves by
    500 px, not by 2000 px. *)
Lemma keyboardNavigation_delta_capped_witness :
  keyboardDelta 1000 0 == 500 /\ keyboardDelta 1000 0 <= 500.
Proof.
  destruct (keyboardNavigation_delta_capped (fun _ _ => 1) sampleProps 1000
              (_keyDownListener (mkKeyboardEvent false false false false "KeyD")
                                0 sampleComponent)
              Nav.right [])
    as (D1 & D2 & _).
  - reflexivity.
  - split; [| exact D2].
    apply (Qeq_trans _ _ _ D1). reflexivity.
Defined.

Lemma keyDownListener_frames (event : KeyboardEvent) (now : Q) (c : Component) :
  let c' := _keyDownListener event now c in
  countFrames KeyboardFrame c'
  = (countFrames KeyboardFrame c
     + match _keysDown c, _keysDown c' with
       | [], _ :: _ => 1
       | _, _ => 0
       end)%nat.
Proof.
  cbv zeta. unfold _keyDownListener.
  destruct (if negb (ctrlKey event) && negb (shiftKey event)
               && negb (altKey event) && negb (metaKey event)
            then BARE_KEYMAP (code event)
            else if ctrlKey event then CTRL_KEYMAP (code event) else None)
    as [k |].
  - destruct (_keysDown c) as [| k0 l] eqn:E; simpl.
    + unfold countFrames; simpl. rewrite E; simpl.
      rewrite filter_app, length_app. reflexivity.
    + rewrite E. unfold countFrames; simpl. lia.
  - destruct (_keysDown c); lia.
Qed.

(** C9.  A navigation frame that finds no key down changes nothing and
    requests no frame; a frame that finds a key down requests exactly one
    more navigation frame and leaves the set of pressed keys as it is.  A
    key-down event starts the loop, with one frame, exactly when it adds a
    navigation key to an empty set. *)
Theorem keyboardNavigation_self_terminates :
  forall (Math_pow : Q -> Q -> Q) (props : ViewportProps) (timestamp : Q)
         (c : Component),
    let c' := _keyboardNavigation Math_pow props timestamp c in
    (_keysDown c = [] -> c' = c) /\
    (_keysDown c <> [] ->
     countFrames KeyboardFrame c' = S (countFrames KeyboardFrame c) /\
     _keysDown c' = _keysDown c) /\
    (forall (event : KeyboardEvent) (now : Q),
        let c1 := _keyDownListener event now c in
        countFrames KeyboardFrame c1
        = (countFrames KeyboardFrame c
           + match _keysDown c, _keysDown c1 with
             | [], _ :: _ => 1
             | _, _ => 0
             end)%nat).
Proof.
  intros Math_pow props timestamp c c'.
  split; [| split].
  - intros Hk. unfold c', _keyboardNavigation. rewrite Hk. reflexivity.
  - intros Hk. unfold c', _keyboardNavigation.
    destruct (_keysDown c) as [| k l] eqn:E; [contradiction |].
    set (delta := keyboardDelta timestamp (_lastKeyboardNavigationFrame c)).
    destruct (navigationLoop_keyboard Math_pow props delta (k :: l)
                (setLastFrame timestamp c)) as (F & K & _).
    split.
    + unfold countFrames in *; simpl in *.
      rewrite filter_app, length_app, F. simpl. lia.
    + simpl in *. rewrite K. exact E.
  - intros event now. apply keyDownListener_frames.
Qed.

(** ** Resizing *)

Lemma Qneq_bool_refl (a : Q) : Qneq_bool a a = false.
Proof. apply Qneq_bool_false. reflexivity. Qed.

(** X1.  [_setSize] is idempotent: measuring the same rectangle a second
    time leaves the component as the first measure left it. *)
Theorem setSize_idempotent :
  forall (props : ViewportProps) (rect : Rect) (c : Component),
    _setSize props rect (_setSize props rect c) = _setSize props rect c.
Proof.
  intros props rect c. unfold _setSize at 2 3.
  destruct (Qneq_bool (containerWidth (state c)) (rect_width rect)
            || Qneq_bool (containerHeight (state c)) (rect_height rect)) eqn:E.
  - unfold _setSize; simpl. rewrite !Qneq_bool_refl. reflexivity.
  - unfold _setSize. rewrite E. reflexivity.
Qed.

(** X2.  A resize keeps the anchored edge: [_setSize] never moves the
    bottom of a chart that starts at the bottom, nor the top of one that
    starts at the top; when the rectangle differs from the recorded size
    it records the new size, marks the size as set, and computes the
    other edge from the anchored one: [top = bottom - height] for a chart
    that starts at the bottom, [bottom = top + height] otherwise. *)
Theorem setSize_keeps_anchored_edge :
  forall (props : ViewportProps) (rect : Rect) (c : Component),
    let st := state c in
    let st' := state (_setSize props rect c) in
    (startsAtBottom props = true -> viewportBottom st' = viewportBottom st) /\
    (startsAtBottom props = false -> viewportTop st' = viewportTop st) /\
    (~ (containerWidth st == rect_width rect /\
        containerHeight st == rect_height rect) ->
     isSizeSet st' = true /\
     containerWidth st' = rect_width rect /\
     containerHeight st' = rect_height rect /\
     containerLeft st' = rect_left rect /\
     (startsAtBottom props = true ->
      viewportTop st' = viewportBottom st - rect_height rect) /\
     (startsAtBottom props = false ->
      viewportBottom st' = viewportTop st + rect_height rect)) /\
    (containerWidth st == rect_width rect ->
     containerHeight st == rect_height rect ->
     _setSize props rect c = c).
Proof.
  intros props rect c st st'. unfold st', _setSize. fold st.
  destruct (Qneq_bool (containerWidth st) (rect_width rect)) eqn:Ew;
    destruct (Qneq_bool (containerHeight st) (rect_height rect)) eqn:Eh;
    simpl.
  1-3: (split; [intros H; rewrite H; reflexivity |];
        split; [intros H; rewrite H; reflexivity |];
        split; [intros _; repeat split; intros H; rewrite H; reflexivity |];
        intros Hw Hh;
        try (apply Qneq_bool_false in Hw; congruence);
        try (apply Qneq_bool_false in Hh; congruence)).
  apply Qneq_bool_false in Ew, Eh.
  split; [reflexivity |]. split; [reflexivity |].
  split; [intros H; exfalso; apply H; split; assumption | reflexivity].
Qed.

(** X3.  A container that measures 0 by 0 never gets its size set, and a
    component whose size is not set ignores every move request: nothing is
    queued, no frame is requested and the state is untouched. *)
Theorem unsized_component_ignores_moves :
  forall (props : ViewportProps) (rect : Rect) (offsetX offsetY : Q),
    rect_width rect == 0 ->
    rect_height rect == 0 ->
    let c := _setSize props rect (newComponent props) in
    isSizeSet (state c) = false /\
    moveViewport props offsetX offsetY c = newComponent props.
Proof.
  intros props rect ox oy Hw Hh c.
  assert (Hc : c = newComponent props).
  { unfold c, _setSize; simpl.
    assert (E1 : Qneq_bool 0 (rect_width rect) = false)
      by (apply Qneq_bool_false; symmetry; exact Hw).
    assert (E2 : Qneq_bool 0 (rect_height rect) = false)
      by (apply Qneq_bool_false; symmetry; exact Hh).
    rewrite E1, E2. reflexivity. }
  rewrite Hc. split; reflexivity.
Qed.

Lemma unsized_component_ignores_moves_witness :
  moveViewport sampleProps 30 40
    (_setSize sampleProps (mkRect 0 0 12) (newComponent sampleProps))
  = newComponent sampleProps.
Proof.
  apply (unsized_component_ignores_moves sampleProps (mkRect 0 0 12) 30 40);
    reflexivity.
Defined.

(** ** Vertical pan: shift and saturation *)

(** The three outcomes of the vertical part when the content is at least
    as high as the container, as the pairs the code builds. *)
Lemma movedVertical_outcomes (maxH : Q) (atBottom : bool) (h top oy : Q) :
  h <= maxH ->
  let target := top - oy in
  (0 <= target -> target + h <= maxH ->
   movedVertical maxH atBottom h top oy = (target, target + h)) /\
  (maxH < target + h ->
   movedVertical maxH atBottom h top oy = (maxH - h, maxH)) /\
  (target + h <= maxH -> target < 0 ->
   movedVertical maxH atBottom h top oy = (0, h)).
Proof.
  intros Hh target. unfold movedVertical. fold target.
  assert (E1 : Qlt_bool maxH h = false) by (apply Qlt_bool_false; exact Hh).
  rewrite E1.
  split; [| split].
  - intros H0 H1.
    assert (E2 : Qlt_bool maxH (target + h) = false)
      by (apply Qlt_bool_false; exact H1).
    assert (E3 : Qlt_bool target 0 = false)
      by (apply Qlt_bool_false; exact H0).
    rewrite E2, E3. reflexivity.
  - intros H0.
    assert (E2 : Qlt_bool maxH (target + h) = true)
      by (apply Qlt_bool_iff; exact H0).
    rewrite E2. reflexivity.
  - intros H1 H0.
    assert (E2 : Qlt_bool maxH (target + h) = false)
      by (apply Qlt_bool_false; exact H1).
    assert (E3 : Qlt_bool target 0 = true)
      by (apply Qlt_bool_iff; exact H0).
    rewrite E2, E3. reflexivity.
Qed.

(** What [moveViewport] does with the pair: it stores it when its top is
    not the current top, and leaves the state alone otherwise. *)
Lemma moveViewport_stores (props : ViewportProps) (ox oy : Q) (c : Component)
    (t b : Q) :
  isSizeSet (state c) = true ->
  movedVertical (maxViewportHeight props) (startsAtBottom props)
    (containerHeight (state c)) (viewportTop (state c)) oy = (t, b) ->
  let st' := state (moveViewport props ox oy c) in
  viewportTop st' == t /\
  (~ t == viewportTop (state c) ->
   viewportTop st' = t /\ viewportBottom st' = b) /\
  (t == viewportTop (state c) -> st' = state c).
Proof.
  intros Hs Hm st'. unfold st', moveViewport. rewrite Hs, Hm; simpl.
  assert (Hc : forall c1, state c1 =
            state (if negb (disableHorizontalMovement props)
                   then _addBatchedPreviewSelectionUpdate
                          (moveUpdate (timeRange props)
                             (containerWidth (state c)) ox) c1
                   else c1)).
  { intros c1. destruct (negb (disableHorizontalMovement props));
      [rewrite addBatched_state |]; reflexivity. }
  rewrite <- Hc.
  destruct (Qneq_bool t (viewportTop (state c))) eqn:E; simpl.
  - split; [reflexivity |]. split; [intros _; split; reflexivity |].
    intros H. apply Qneq_bool_false in H. congruence.
  - apply Qneq_bool_false in E.
    split; [symmetry; exact E |]. split; [intros H; contradiction |].
    intros _. reflexivity.
Qed.

(** X4.  On a sized component whose content is at least as high as the
    container, a vertical pan by [offsetY] aims at the top
    [viewportTop - offsetY].  While the window it aims at lies inside the
    content, that is the new top; when its bottom would pass the bottom of
    the content the new top is [maxViewportHeight - containerHeight], and
    when it would pass the top the new top is 0.  When the new top is not
    the old one, the state gets it together with the bottom the code
    computes for it ([top + containerHeight], [maxViewportHeight],
    [containerHeight]); when it is the old one, the state is left
    untouched. *)
Theorem moveViewport_vertical_shift :
  forall (props : ViewportProps) (offsetX offsetY : Q) (c : Component),
    isSizeSet (state c) = true ->
    containerHeight (state c) <= maxViewportHeight props ->
    let st := state c in
    let st' := state (moveViewport props offsetX offsetY c) in
    let h := containerHeight st in
    let maxH := maxViewportHeight props in
    let target := viewportTop st - offsetY in
    (0 <= target -> target + h <= maxH ->
     viewportTop st' == target /\
     (~ target == viewportTop st ->
      viewportTop st' = target /\ viewportBottom st' = target + h) /\
     (target == viewportTop st -> st' = st)) /\
    (maxH < target + h ->
     viewportTop st' == maxH - h /\
     (~ maxH - h == viewportTop st ->
      viewportTop st' = maxH - h /\ viewportBottom st' = maxH) /\
     (maxH - h == viewportTop st -> st' = st)) /\
    (target + h <= maxH -> target < 0 ->
     viewportTop st' == 0 /\
     (~ 0 == viewportTop st ->
      viewportTop st' = 0 /\ viewportBottom st' = h) /\
     (0 == viewportTop st -> st' = st)).
Proof.
  intros props ox oy c Hs Hh st st' h maxH target.
  pose proof (movedVertical_outcomes maxH (startsAtBottom props) h
                (viewportTop st) oy Hh) as (O1 & O2 & O3).
  fold target in O1, O2, O3.
  split; [| split].
  - intros H0 H1.
    apply (moveViewport_stores props ox oy c _ _ Hs (O1 H0 H1)).
  - intros H0.
    apply (moveViewport_stores props ox oy c _ _ Hs (O2 H0)).
  - intros H1 H0.
    apply (moveViewport_stores props ox oy c _ _ Hs (O3 H1 H0)).
Qed.

(** The sample chart, 50 px of a content of 100 px, dragged up by 30 px
    shows the pixels 30 to 80. *)
Lemma moveViewport_vertical_shift_witness :
  let st' := state (moveViewport sampleProps 0 (-30) sampleComponent) in
  viewportTop st' == 30 /\ viewportBottom st' == 80.
Proof.
  destruct (moveViewport_vertical_shift sampleProps 0 (-30) sampleComponent)
    as (H & _).
  - reflexivity.
  - vm_compute. discriminate.
  - destruct H as (Ht & Hb & _).
    + vm_compute. discriminate.
    + vm_compute. discriminate.
    + split; [apply (Qeq_trans _ _ _ Ht); reflexivity |].
      destruct Hb as [_ Hb]; [vm_compute; discriminate |].
      rewrite Hb. reflexivity.
Defined.

(** ** Horizontal pan: edges and composition *)

Lemma unitOffset_sign (len ox cw : Q) :
  0 <= len -> 0 < cw ->
  (0 <= ox -> 0 <= len * ox / cw) /\ (ox <= 0 -> len * ox / cw <= 0).
Proof.
  intros Hl Hc. split; intros Ho.
  - apply Qle_shift_div_l; [exact Hc |].
    rewrite Qmult_0_l. apply Qmult_le_0_compat; assumption.
  - apply Qle_shift_div_r; [exact Hc |].
    rewrite Qmult_0_l.
    assert (H : 0 <= len * - ox) by (apply Qmult_le_0_compat; lra).
    assert (E : len * - ox == - (len * ox)) by ring.
    lra.
Qed.

(** X5.  Panning against an edge keeps the window on it.  A window that
    touches the left edge is left exactly where it is by a pan towards
    the left ([offsetX >= 0]); of a window that touches the right edge, a
    pan towards the right ([offsetX <= 0]) leaves the right bound at 1. *)
Theorem pan_against_edge_is_identity :
  forall (containerWidth offsetX : Q) (hv : HorizontalViewport),
    0 < containerWidth ->
    valid_horizontal hv ->
    viewportLength hv < 1 ->
    let new := pannedViewport containerWidth offsetX hv in
    (viewportLeft hv == 0 -> 0 <= offsetX -> hv_eq new hv) /\
    (viewportRight hv == 1 -> offsetX <= 0 -> viewportRight new == 1).
Proof.
  intros cw ox hv Hc (H0 & H1 & H2) Hlen new.
  pose proof (pannedViewport_spec cw ox hv Hlen) as (_ & _ & _ & P1 & P2 & P3).
  fold new in P1, P2, P3.
  assert (Hl : 0 <= viewportLength hv) by (unfold viewportLength; lra).
  destruct (unitOffset_sign (viewportLength hv) ox cw Hl Hc) as [S1 S2].
  set (u := viewportLength hv * ox / cw) in *. clearbody u.
  unfold hv_eq, viewportLength in *.
  split; intros He Ho.
  - specialize (S1 Ho).
    destruct (Qlt_le_dec (viewportLeft hv - u) 0) as [L | L].
    + specialize (P1 L). lra.
    + assert (Hr : viewportRight hv - u <= 1) by lra.
      specialize (P3 L Hr). lra.
  - specialize (S2 Ho).
    destruct (Qlt_le_dec 1 (viewportRight hv - u)) as [L | L].
    + assert (Hl0 : 0 <= viewportLeft hv - u) by lra.
      specialize (P2 Hl0 L). lra.
    + assert (Hl0 : 0 <= viewportLeft hv - u) by lra.
      specialize (P3 Hl0 L). lra.
Qed.

Lemma pan_against_edge_is_identity_witness :
  hv_eq (pannedViewport 1000 250 (mkHV 0 (1 # 2))) (mkHV 0 (1 # 2)).
Proof.
  destruct (pan_against_edge_is_identity 1000 250 (mkHV 0 (1 # 2)))
    as (H & _).
  - vm_compute. reflexivity.
  - repeat split; vm_compute; (reflexivity || discriminate).
  - vm_compute. reflexivity.
  - apply H; vm_compute; (reflexivity || discriminate).
Defined.

Lemma hv_eq_sym (a b : HorizontalViewport) : hv_eq a b -> hv_eq b a.
Proof. unfold hv_eq. intros [H1 H2]. split; symmetry; assumption. Qed.

Lemma hv_eq_trans (a b c : HorizontalViewport) :
  hv_eq a b -> hv_eq b c -> hv_eq a c.
Proof. unfold hv_eq. intros [H1 H2] [H3 H4]. split; lra. Qed.

(** The three cases of [pannedViewport], for any number equal to the unit
    offset. *)
Lemma pannedViewport_cases (cw ox u : Q) (hv : HorizontalViewport) :
  viewportLength hv < 1 ->
  u == viewportLength hv * ox / cw ->
  let p := pannedViewport cw ox hv in
  (viewportLeft hv - u < 0 /\
   viewportLeft p == 0 /\ viewportRight p == viewportLength hv) \/
  (0 <= viewportLeft hv - u /\ 1 < viewportRight hv - u /\
   viewportLeft p == 1 - viewportLength hv /\ viewportRight p == 1) \/
  (0 <= viewportLeft hv - u /\ viewportRight hv - u <= 1 /\
   viewportLeft p == viewportLeft hv - u /\
   viewportRight p == viewportRight hv - u).
Proof.
  intros Hlen Hu p.
  pose proof (pannedViewport_spec cw ox hv Hlen) as (_ & _ & _ & P1 & P2 & P3).
  fold p in P1, P2, P3.
  set (u0 := viewportLength hv * ox / cw) in *. clearbody u0.
  destruct (Qlt_le_dec (viewportLeft hv - u) 0) as [L | L].
  - left. assert (L0 : viewportLeft hv - u0 < 0) by lra.
    specialize (P1 L0). repeat split; lra.
  - assert (L0 : 0 <= viewportLeft hv - u0) by lra.
    destruct (Qlt_le_dec 1 (viewportRight hv - u)) as [R | R].
    + right; left. assert (R0 : 1 < viewportRight hv - u0) by lra.
      specialize (P2 L0 R0). repeat split; lra.
    + right; right. assert (R0 : viewportRight hv - u0 <= 1) by lra.
      specialize (P3 L0 R0). repeat split; lra.
Qed.

Lemma pannedViewport_hv_eq (cw ox : Q) (a b : HorizontalViewport) :
  hv_eq a b -> viewportLength b < 1 ->
  hv_eq (pannedViewport cw ox a) (pannedViewport cw ox b).
Proof.
  intros E Hb.
  pose proof (viewportLength_hv_eq a b E) as El.
  assert (Ha : viewportLength a < 1) by lra.
  assert (Eu : viewportLength b * ox / cw == viewportLength a * ox / cw)
    by (rewrite El; reflexivity).
  pose proof (pannedViewport_cases cw ox (viewportLength b * ox / cw) a Ha Eu)
    as CA.
  pose proof (pannedViewport_cases cw ox (viewportLength b * ox / cw) b Hb
                (Qeq_refl _)) as CB.
  set (u := viewportLength b * ox / cw) in *. clearbody u.
  destruct E as [E1 E2]. unfold hv_eq.
  destruct CA as [CA | [CA | CA]]; destruct CB as [CB | [CB | CB]];
    split; lra.
Qed.

Lemma pannedViewport_add (cw a b : Q) (hv : HorizontalViewport) :
  viewportLength hv < 1 ->
  let ua := viewportLength hv * a / cw in
  0 <= viewportLeft hv - ua -> viewportRight hv - ua <= 1 ->
  hv_eq (pannedViewport cw b (pannedViewport cw a hv))
        (pannedViewport cw (a + b) hv).
Proof.
  intros Hlen ua H0 H1.
  pose proof (pannedViewport_spec cw a hv Hlen) as (_ & _ & Pl & _ & _ & P3).
  specialize (P3 H0 H1). fold ua in P3.
  set (p := pannedViewport cw a hv) in *.
  assert (Hp : viewportLength p < 1) by lra.
  set (ub := viewportLength hv * b / cw).
  assert (Eb : ub == viewportLength p * b / cw)
    by (unfold ub; rewrite Pl; reflexivity).
  assert (Eab : ua + ub == viewportLength hv * (a + b) / cw).
  { unfold ua, ub, Qdiv. ring. }
  pose proof (pannedViewport_cases cw b ub p Hp Eb) as C1.
  pose proof (pannedViewport_cases cw (a + b) (ua + ub) hv Hlen Eab) as C2.
  clearbody ua ub p. destruct P3 as [P3l P3r]. unfold hv_eq.
  destruct C1 as [C1 | [C1 | C1]]; destruct C2 as [C2 | [C2 | C2]];
    split; lra.
Qed.

(** X6.  In exact arithmetic, pans add up: when a pan by [a] does not
    reach an edge, queueing a pan by [a] and then a pan by [b] in one
    frame gives the same viewport as a single pan by [a + b].  (In
    binary64 the two agree up to rounding only.) *)
Theorem pans_add_up :
  forall (props : ViewportProps) (containerWidth a b : Q)
         (sel : PreviewSelection),
    let tr := timeRange props in
    let hv := getHorizontalViewport sel tr in
    let ua := viewportLength hv * a / containerWidth in
    range_start tr < range_end tr ->
    ~ containerWidth == 0 ->
    viewportLength hv < 1 ->
    0 <= viewportLeft hv - ua ->
    viewportRight hv - ua <= 1 ->
    hv_eq
      (getHorizontalViewport
         (flushLoop props
            [moveUpdate tr containerWidth a; moveUpdate tr containerWidth b]
            sel) tr)
      (getHorizontalViewport
         (flushLoop props [moveUpdate tr containerWidth (a + b)] sel) tr).
Proof.
  intros props cw a b sel tr hv ua Hr Hw Hlen H0 H1. simpl.
  fold tr. fold hv.
  assert (Hne : ~ range_end tr - range_start tr == 0) by lra.
  pose proof (moveUpdate_viewport tr cw a props hv Hlen Hne) as E1.
  set (hv1 := getHorizontalViewport (moveUpdate tr cw a props hv) tr) in *.
  pose proof (pannedViewport_spec cw a hv Hlen) as (_ & _ & Pl & _).
  assert (Hp : viewportLength (pannedViewport cw a hv) < 1) by lra.
  assert (Hlen1 : viewportLength hv1 < 1).
  { rewrite (viewportLength_hv_eq _ _ E1). exact Hp. }
  apply (hv_eq_trans _ (pannedViewport cw b hv1));
    [apply moveUpdate_viewport; assumption |].
  apply (hv_eq_trans _ (pannedViewport cw b (pannedViewport cw a hv)));
    [apply pannedViewport_hv_eq; assumption |].
  apply (hv_eq_trans _ (pannedViewport cw (a + b) hv));
    [apply pannedViewport_add; assumption |].
  apply hv_eq_sym. apply moveUpdate_viewport; assumption.
Qed.

(** Two drags by 100 px and 150 px of the window [[0.25, 0.75]] on the
    sample chart are one drag by 250 px. *)
Lemma pans_add_up_witness :
  hv_eq
    (getHorizontalViewport
       (flushLoop sampleProps
          [moveUpdate (mkRange 0 10) 1000 100; moveUpdate (mkRange 0 10) 1000 150]
          (Selection false (5 # 2) (15 # 2))) (mkRange 0 10))
    (getHorizontalViewport
       (flushLoop sampleProps [moveUpdate (mkRange 0 10) 1000 (100 + 150)]
          (Selection false (5 # 2) (15 # 2))) (mkRange 0 10)).
Proof.
  apply (pans_add_up sampleProps 1000 100 150 (Selection false (5 # 2) (15 # 2)));
    vm_compute; (reflexivity || discriminate).
Defined.

(** ** Zoom: composition *)

Lemma clamp_compat (lo lo' hi hi' v v' : Q) :
  lo == lo' -> hi == hi' -> v == v' -> clamp lo hi v == clamp lo' hi' v'.
Proof.
  intros E1 E2 E3.
  destruct (clamp_cases lo hi v) as [C | [C | [C | C]]];
    destruct (clamp_cases lo' hi' v') as [D | [D | [D | D]]]; lra.
Qed.

Lemma zoomedViewport_hv_eq (mz center zf : Q) (a b : HorizontalViewport) :
  hv_eq a b ->
  hv_eq (zoomedViewport mz center zf a) (zoomedViewport mz center zf b).
Proof.
  intros [E1 E2]. unfold hv_eq, zoomedViewport; simpl.
  assert (En : clamp mz 1 ((viewportRight a - viewportLeft a) * zf)
               == clamp mz 1 ((viewportRight b - viewportLeft b) * zf)).
  { apply clamp_compat; try reflexivity. rewrite E1, E2. reflexivity. }
  split; apply clamp_compat; try reflexivity;
    rewrite ?En, ?E1, ?E2; reflexivity.
Qed.

(** A zoom that neither hits the zoom limits nor an edge: the new width
    is [length * zoomFactor] and the left bound moves by
    [delta * center]. *)
Lemma zoomedViewport_unclamped (mz center zf : Q) (hv : HorizontalViewport) :
  let len := viewportLength hv in
  let delta := len * zf - len in
  mz <= len * zf -> len * zf <= 1 ->
  0 <= viewportLeft hv - delta * center ->
  viewportLeft hv - delta * center <= 1 - len * zf ->
  let z := zoomedViewport mz center zf hv in
  viewportLeft z == viewportLeft hv - delta * center /\
  viewportRight z == viewportLeft hv - delta * center + len * zf.
Proof.
  intros len delta H0 H1 H2 H3 z.
  unfold z, zoomedViewport; simpl. fold (viewportLength hv). fold len.
  assert (En : clamp mz 1 (len * zf) == len * zf).
  { destruct (clamp_cases mz 1 (len * zf)) as [C | [C | [C | C]]]; lra. }
  set (n := clamp mz 1 (len * zf)) in *.
  assert (Ed : (n - len) * center == delta * center)
    by (unfold delta; rewrite En; reflexivity).
  assert (Ee : (n - len) * (1 - center) == len * zf - len - delta * center)
    by (unfold delta; rewrite En; ring).
  assert (El : len == viewportRight hv - viewportLeft hv) by reflexivity.
  set (dc := delta * center) in *.
  set (x := (n - len) * center) in *.
  set (y := (n - len) * (1 - center)) in *.
  set (p := len * zf) in *.
  clearbody dc x y p n len.
  destruct (clamp_cases 0 (1 - n) (viewportLeft hv - x)) as [C | [C | [C | C]]];
    destruct (clamp_cases n 1 (viewportRight hv + y)) as [D | [D | [D | D]]];
    split; lra.
Qed.

(** A zoom whose new length is the old one leaves the bounds of a window
    that fits the clamps of the code: [0 <= left <= 1 - length] and
    [length <= right <= 1]. *)
Lemma zoomedViewport_fixed (mz center zf : Q) (hv : HorizontalViewport) :
  clamp mz 1 (viewportLength hv * zf) == viewportLength hv ->
  0 <= viewportLeft hv -> viewportLeft hv <= 1 - viewportLength hv ->
  viewportLength hv <= viewportRight hv -> viewportRight hv <= 1 ->
  hv_eq (zoomedViewport mz center zf hv) hv.
Proof.
  intros En H0 H1 H2 H3.
  unfold hv_eq, zoomedViewport; simpl. fold (viewportLength hv).
  set (n := clamp mz 1 (viewportLength hv * zf)) in *.
  assert (Ed : (n - viewportLength hv) * center == 0)
    by (rewrite En; ring).
  assert (Ee : (n - viewportLength hv) * (1 - center) == 0)
    by (rewrite En; ring).
  set (x := (n - viewportLength hv) * center) in *.
  set (y := (n - viewportLength hv) * (1 - center)) in *.
  clearbody x y n. generalize dependent (viewportLength hv). intros len.
  intros En H1 H2.
  destruct (clamp_cases 0 (1 - n) (viewportLeft hv - x)) as [C | [C | [C | C]]];
    destruct (clamp_cases n 1 (viewportRight hv + y)) as [D | [D | [D | D]]];
    split; lra.
Qed.

Lemma zoomUpdate_none_iff (mz center zf : Q) (props : ViewportProps)
    (hv : HorizontalViewport) :
  let new := zoomedViewport mz center zf hv in
  hasSelection (zoomUpdate mz center zf props hv) = false <->
  viewportLeft new == 0 /\ viewportRight new == 1.
Proof.
  cbv zeta. unfold zoomUpdate.
  destruct (Qeq_bool (viewportLeft (zoomedViewport mz center zf hv)) 0) eqn:E0;
    destruct (Qeq_bool (viewportRight (zoomedViewport mz center zf hv)) 1)
      eqn:E1; simpl.
  - apply Qeq_bool_iff in E0, E1. tauto.
  - apply Qeq_bool_neq in E1. split; [discriminate | tauto].
  - apply Qeq_bool_neq in E0. split; [discriminate | tauto].
  - apply Qeq_bool_neq in E0. split; [discriminate | tauto].
Qed.

(** X7.  A zoom by factor 1 changes nothing: for a window at least
    [maximumZoom] and at most 1 long that fits the clamps of the zoom
    ([0 <= left <= 1 - length] and [length <= right <= 1], with the length
    [right - left]), the bounds the callback computes are the bounds it
    was given, whatever the center, and it returns no selection exactly
    when the window is the whole range. *)
Theorem zoom_by_one_is_identity :
  forall (props : ViewportProps) (maximumZoom center : Q)
         (hv : HorizontalViewport),
    let length := viewportRight hv - viewportLeft hv in
    maximumZoom <= length -> length <= 1 ->
    0 <= viewportLeft hv -> viewportLeft hv <= 1 - length ->
    length <= viewportRight hv -> viewportRight hv <= 1 ->
    hv_eq (zoomedViewport maximumZoom center 1 hv) hv /\
    (hasSelection (zoomUpdate maximumZoom center 1 props hv) = false <->
     viewportLeft hv == 0 /\ viewportRight hv == 1).
Proof.
  intros props mz center hv len Hm Hl H0 H1 H2 H3.
  assert (Z : hv_eq (zoomedViewport mz center 1 hv) hv).
  { apply zoomedViewport_fixed; try assumption.
    fold len.
    assert (E : viewportLength hv * 1 == len) by (unfold viewportLength, len; ring).
    unfold viewportLength in *. fold len in E |- *.
    destruct (clamp_cases mz 1 (len * 1)) as [C | [C | [C | C]]]; lra. }
  split; [exact Z |].
  rewrite zoomUpdate_none_iff. destruct Z as [Z1 Z2].
  rewrite Z1, Z2. tauto.
Qed.

Lemma zoom_by_one_is_identity_witness :
  hv_eq (zoomedViewport (1 # 100) (1 # 3) 1 (mkHV (1 # 4) (3 # 4)))
        (mkHV (1 # 4) (3 # 4)).
Proof.
  apply (zoom_by_one_is_identity sampleProps (1 # 100) (1 # 3)
           (mkHV (1 # 4) (3 # 4)));
    vm_compute; discriminate.
Defined.

(** X8.  In exact arithmetic, zooming back undoes a zoom: when a zoom by
    [f] around [center] hits neither a zoom limit nor an edge, and the
    viewport it started from lies inside the unit interval and is at
    least [maximumZoom] wide, queueing that zoom and then a zoom by [g]
    with [f * g = 1] around the same center gives back the starting
    viewport.  (In binary64 it comes back up to rounding only.) *)
Theorem zoom_then_inverse_zoom :
  forall (props : ViewportProps) (maximumZoom center f g : Q)
         (sel : PreviewSelection),
    let tr := timeRange props in
    let hv := getHorizontalViewport sel tr in
    let len := viewportLength hv in
    let delta := len * f - len in
    range_start tr < range_end tr ->
    f * g == 1 ->
    maximumZoom <= len * f -> len * f <= 1 ->
    0 <= viewportLeft hv - delta * center ->
    viewportLeft hv - delta * center <= 1 - len * f ->
    maximumZoom <= len -> 0 <= viewportLeft hv -> viewportRight hv <= 1 ->
    hv_eq
      (getHorizontalViewport
         (flushLoop props
            [zoomUpdate maximumZoom center f; zoomUpdate maximumZoom center g]
            sel) tr)
      hv.
Proof.
  intros props mz center f g sel tr hv len delta Hr Hfg F0 F1 F2 F3 G0 G1 G2.
  simpl. fold tr. fold hv.
  assert (Hne : ~ range_end tr - range_start tr == 0) by lra.
  pose proof (zoomUpdate_viewport mz center f props hv Hne) as E1.
  fold tr in E1.
  set (hv1 := getHorizontalViewport (zoomUpdate mz center f props hv) tr) in *.
  destruct (zoomedViewport_unclamped mz center f hv F0 F1 F2 F3) as [Zl Zr].
  fold len in Zl, Zr. fold delta in Zl, Zr.
  set (z1 := zoomedViewport mz center f hv) in *.
  apply (hv_eq_trans _ (zoomedViewport mz center g hv1));
    [apply (zoomUpdate_viewport mz center g props hv1 Hne) |].
  apply (hv_eq_trans _ (zoomedViewport mz center g z1));
    [apply zoomedViewport_hv_eq; exact E1 |].
  assert (L1 : viewportLength z1 == len * f)
    by (unfold viewportLength at 1; rewrite Zl, Zr; ring).
  assert (L2 : viewportLength z1 * g == len).
  { rewrite L1. setoid_replace (len * f * g) with (len * (f * g)) by ring.
    rewrite Hfg. ring. }
  assert (D2 : (viewportLength z1 * g - viewportLength z1) * center
               == - (delta * center)).
  { rewrite L2, L1. unfold delta. ring. }
  assert (Hlen : len == viewportRight hv - viewportLeft hv) by reflexivity.
  destruct (zoomedViewport_unclamped mz center g z1) as [Yl Yr].
  - rewrite L2. exact G0.
  - rewrite L2. lra.
  - rewrite D2, Zl. lra.
  - rewrite D2, Zl, L2. lra.
  - rewrite D2, Zl in Yl. rewrite D2, Zl, L2 in Yr.
    unfold hv_eq. split; lra.
Qed.

(** Zooming [[0.25, 0.75]] in by 1/2 and out by 2 around its middle. *)
Lemma zoom_then_inverse_zoom_witness :
  hv_eq
    (getHorizontalViewport
       (flushLoop sampleProps
          [zoomUpdate (1 # 100) (1 # 2) (1 # 2); zoomUpdate (1 # 100) (1 # 2) 2]
          (Selection false (5 # 2) (15 # 2))) (mkRange 0 10))
    (getHorizontalViewport (Selection false (5 # 2) (15 # 2)) (mkRange 0 10)).
Proof.
  apply (zoom_then_inverse_zoom sampleProps (1 # 100) (1 # 2) (1 # 2) 2
           (Selection false (5 # 2) (15 # 2)));
    vm_compute; (reflexivity || discriminate).
Defined.

(** ** Horizontal movement disabled; flushing twice; a pan end to end *)

(** X9.  With [disableHorizontalMovement], the component never touches
    the preview selection: a zoom request does nothing at all, a move
    request queues nothing and requests no frame, and a flush of the
    resulting component finds nothing to send. *)
Theorem disabled_horizontal_movement_never_updates :
  forall (props flushProps : ViewportProps) (x y : Q) (c : Component),
    disableHorizontalMovement props = true ->
    zoomRangeSelection props x y c = c /\
    let c' := moveViewport props x y c in
    _pendingPreviewSelectionUpdates c' = _pendingPreviewSelectionUpdates c /\
    requestedFrames c' = requestedFrames c /\
    dispatched c' = dispatched c /\
    (_pendingPreviewSelectionUpdates c = [] ->
     _flushPendingPreviewSelectionUpdates flushProps c' = c').
Proof.
  intros props fp x y c Hd.
  split; [unfold zoomRangeSelection; rewrite Hd; reflexivity |].
  intros c'.
  assert (H : _pendingPreviewSelectionUpdates c'
              = _pendingPreviewSelectionUpdates c /\
              requestedFrames c' = requestedFrames c /\
              dispatched c' = dispatched c).
  { unfold c', moveViewport. rewrite Hd; simpl.
    destruct (negb (isSizeSet (state c))); [repeat split |].
    destruct (movedVertical _ _ _ _ _) as [t b].
    destruct (Qneq_bool t (viewportTop (state c))); repeat split. }
  destruct H as (P & F & D).
  repeat (split; [assumption |]).
  intros Hp. unfold _flushPendingPreviewSelectionUpdates.
  rewrite P, Hp. reflexivity.
Qed.

Lemma disabled_horizontal_movement_never_updates_witness :
  dispatched
    (_flushPendingPreviewSelectionUpdates sampleProps
       (moveViewport verticalOnlyProps 30 (-20) sampleComponent))
  = [].
Proof.
  destruct (disabled_horizontal_movement_never_updates
              verticalOnlyProps sampleProps 30 (-20) sampleComponent)
    as (_ & _ & _ & D & Hf).
  - reflexivity.
  - rewrite Hf; [exact D | reflexivity].
Defined.

(** X10.  A flush empties the queue, so a second flush, with whatever
    props, sends nothing: flushing twice is flushing once. *)
Theorem flush_twice_is_flush_once :
  forall (props props' : ViewportProps) (c : Component),
    _flushPendingPreviewSelectionUpdates props'
      (_flushPendingPreviewSelectionUpdates props c)
    = _flushPendingPreviewSelectionUpdates props c.
Proof.
  intros props props' c.
  unfold _flushPendingPreviewSelectionUpdates at 2 3.
  destruct (_pendingPreviewSelectionUpdates c) as [| u l] eqn:E.
  - unfold _flushPendingPreviewSelectionUpdates. rewrite E. reflexivity.
  - reflexivity.
Qed.

(** X11.  A pan from request to state: on a sized component with an
    empty queue and horizontal movement enabled, a move request followed
    by the flush of its frame empties the queue and sends exactly one
    selection, the one the pan callback computes from the viewport of the
    current preview selection; once the props carry that selection,
    [UNSAFE_componentWillReceiveProps] stores as the horizontal viewport
    what [getHorizontalViewport] reads back from it. *)
Theorem pan_reaches_the_state :
  forall (props : ViewportProps) (offsetX offsetY : Q) (c : Component),
    let tr := timeRange props in
    let hv := getHorizontalViewport (previewSelection props) tr in
    let sel := moveUpdate tr (containerWidth (state c)) offsetX props hv in
    isSizeSet (state c) = true ->
    disableHorizontalMovement props = false ->
    _pendingPreviewSelectionUpdates c = [] ->
    let c1 := _flushPendingPreviewSelectionUpdates props
                (moveViewport props offsetX offsetY c) in
    let c2 := UNSAFE_componentWillReceiveProps false true false
                (withPreviewSelection sel props) c1 in
    dispatched c1 = dispatched c ++ [sel] /\
    _pendingPreviewSelectionUpdates c1 = [] /\
    requestedFrames c1 = requestedFrames c ++ [FlushFrame] /\
    horizontalViewport (state c2) = getHorizontalViewport sel tr.
Proof.
  intros props ox oy c tr hv sel Hs Hd Hp c1 c2.
  pose proof (moveViewport_pending props ox oy c Hs Hd) as P.
  rewrite Hp in P; simpl in P.
  assert (D : dispatched (moveViewport props ox oy c) = dispatched c /\
              requestedFrames (moveViewport props ox oy c)
              = requestedFrames c ++ [FlushFrame]).
  { unfold moveViewport. rewrite Hs, Hd; simpl.
    destruct (movedVertical _ _ _ _ _) as [t b].
    rewrite addBatched_dispatched, addBatched_frames.
    destruct (Qneq_bool t (viewportTop (state c))); simpl; rewrite Hp;
      split; reflexivity. }
  destruct D as [D F].
  unfold c2, c1, _flushPendingPreviewSelectionUpdates. rewrite P. simpl.
  rewrite D, F. repeat split.
Qed.

Lemma pan_reaches_the_state_witness :
  let props :=
    withPreviewSelection (Selection false (5 # 2) (15 # 2)) sampleProps in
  List.length
    (dispatched
       (_flushPendingPreviewSelectionUpdates props
          (moveViewport props 100 0 sampleComponent)))
  = 1%nat.
Proof.
  destruct (pan_reaches_the_state
              (withPreviewSelection (Selection false (5 # 2) (15 # 2)) sampleProps)
              100 0 sampleComponent)
    as (D & _).
  - reflexivity.
  - reflexivity.
  - reflexivity.
  - cbv zeta. rewrite D. reflexivity.
Defined.

(** ** The set of pressed keys *)

Lemma Nav_eqb_eq (a b : NavigationKey) : Nav.eqb a b = true <-> a = b.
Proof. destruct a, b; simpl; split; intros H; congruence. Qed.

Lemma existsb_Nav_eqb (k : NavigationKey) (s : list NavigationKey) :
  existsb (Nav.eqb k) s = true <-> In k s.
Proof.
  rewrite existsb_exists. split.
  - intros (x & Hx & E). apply Nav_eqb_eq in E. subst. exact Hx.
  - intros H. exists k. split; [exact H | apply Nav_eqb_eq; reflexivity].
Qed.

Lemma In_keys_add (k k' : NavigationKey) (s : list NavigationKey) :
  In k' (keys_add k s) <-> In k' s \/ k' = k.
Proof.
  unfold keys_add. destruct (existsb (Nav.eqb k) s) eqn:E.
  - apply existsb_Nav_eqb in E. split; [tauto | intros [H | H]; subst; tauto].
  - rewrite in_app_iff. simpl. split.
    + intros [H | [H | []]]; [left; exact H | right; symmetry; exact H].
    + intros [H | H]; [left; exact H | right; left; symmetry; exact H].
Qed.

Lemma In_keys_delete (o : option NavigationKey) (k : NavigationKey)
    (s : list NavigationKey) :
  In k (keys_delete o s) <-> In k s /\ o <> Some k.
Proof.
  destruct o as [k0 |]; simpl.
  - rewrite filter_In, negb_true_iff. split; intros [H1 H2]; split; try exact H1.
    + intros E. injection E as E. subst.
      assert (Nav.eqb k k = true) by (apply Nav_eqb_eq; reflexivity).
      congruence.
    + destruct (Nav.eqb k0 k) eqn:E; [| reflexivity].
      apply Nav_eqb_eq in E. subst. exfalso. apply H2. reflexivity.
  - split; [intros H; split; [exact H | discriminate] | tauto].
Qed.

Lemma NoDup_keys_delete (o : option NavigationKey) (s : list NavigationKey) :
  NoDup s -> NoDup (keys_delete o s).
Proof.
  intros H. destruct o; simpl; [apply NoDup_filter |]; exact H.
Qed.

Lemma setKeysDown_same (c : Component) : setKeysDown (_keysDown c) c = c.
Proof. destruct c; reflexivity. Qed.

Lemma keyDownListener_unfold (event : KeyboardEvent) (now : Q) (c : Component) :
  _keyDownListener event now c
  = match keyDownNavigationKey event with
    | Some navigationKey =>
        let c1 :=
          match _keysDown c with
          | [] => setLastFrame now (requestAnimationFrame KeyboardFrame c)
          | _ :: _ => c
          end in
        setKeysDown (keys_add navigationKey (_keysDown c1)) c1
    | None => c
    end.
Proof. reflexivity. Qed.

(** X12.  A key-down event changes the component only when it adds a
    navigation key that was not down: an event that maps to no navigation
    key (an unknown code, or shift, alt or meta held without ctrl) and the
    repeat of a key that is already down leave it exactly as it was; with
    ctrl held the key is looked up in [CTRL_KEYMAP] only; a new key is
    appended to the set and nothing else but the frame request and the
    timestamp of an empty set changes. *)
Theorem keyDown_only_adds_a_new_key :
  forall (event : KeyboardEvent) (now : Q) (c : Component),
    let c' := _keyDownListener event now c in
    let nav := keyDownNavigationKey event in
    (nav = None -> c' = c) /\
    (forall k, nav = Some k -> In k (_keysDown c) -> c' = c) /\
    (forall k, nav = Some k -> ~ In k (_keysDown c) ->
               _keysDown c' = _keysDown c ++ [k] /\
               state c' = state c /\
               _pendingPreviewSelectionUpdates c'
               = _pendingPreviewSelectionUpdates c /\
               dispatched c' = dispatched c) /\
    (ctrlKey event = false ->
     shiftKey event || altKey event || metaKey event = true -> nav = None) /\
    (ctrlKey event = true -> nav = CTRL_KEYMAP (code event)).
Proof.
  intros event now c c' nav. unfold c'. rewrite keyDownListener_unfold.
  fold nav. split; [| split; [| split; [| split]]].
  - intros H. rewrite H. reflexivity.
  - intros k H Hin. rewrite H.
    destruct (_keysDown c) as [| k0 l] eqn:E; [contradiction |]. cbv zeta.
    assert (Ha : keys_add k (_keysDown c) = _keysDown c).
    { unfold keys_add. rewrite E.
      assert (X : existsb (Nav.eqb k) (k0 :: l) = true)
        by (apply existsb_Nav_eqb; exact Hin).
      rewrite X. reflexivity. }
    rewrite Ha. apply setKeysDown_same.
  - intros k H Hnin. rewrite H.
    assert (Ha : keys_add k (_keysDown c) = _keysDown c ++ [k]).
    { unfold keys_add.
      destruct (existsb (Nav.eqb k) (_keysDown c)) eqn:X; [| reflexivity].
      apply existsb_Nav_eqb in X. contradiction. }
    destruct (_keysDown c) as [| k0 l] eqn:E; cbv zeta; simpl;
      rewrite ?E; simpl in Ha; rewrite ?Ha; repeat split.
  - intros Hc Hm. unfold nav, keyDownNavigationKey. rewrite Hc.
    destruct (shiftKey event), (altKey event), (metaKey event);
      simpl in *; try reflexivity; discriminate.
  - intros Hc. unfold nav, keyDownNavigationKey. rewrite Hc. reflexivity.
Qed.

(** X13.  The set of pressed keys never holds a key twice: key-down and
    key-up events keep it free of duplicates, and a navigation frame does
    not touch it. *)
Theorem keysDown_has_no_duplicates :
  forall (Math_pow : Q -> Q -> Q) (props : ViewportProps)
         (event : KeyboardEvent) (t : Q) (c : Component),
    NoDup (_keysDown c) ->
    NoDup (_keysDown (_keyDownListener event t c)) /\
    NoDup (_keysDown (_keyUpListener event c)) /\
    _keysDown (_keyboardNavigation Math_pow props t c) = _keysDown c.
Proof.
  intros Math_pow props event t c Hnd. split; [| split].
  - rewrite keyDownListener_unfold.
    destruct (keyDownNavigationKey event) as [k |]; [| exact Hnd].
    assert (Hk : NoDup (keys_add k (_keysDown c))).
    { unfold keys_add.
      destruct (existsb (Nav.eqb k) (_keysDown c)) eqn:X; [exact Hnd |].
      apply NoDup_app; [exact Hnd | repeat constructor; intros [] |].
      intros x Hx [Hy | []]. subst.
      assert (existsb (Nav.eqb x) (_keysDown c) = true)
        by (apply existsb_Nav_eqb; exact Hx).
      congruence. }
    destruct (_keysDown c) eqn:E; cbv zeta; simpl; rewrite ?E; exact Hk.
  - unfold _keyUpListener; simpl.
    repeat apply NoDup_keys_delete.
    destruct (negb (ctrlKey event)); simpl;
      [repeat apply NoDup_filter |]; exact Hnd.
  - unfold _keyboardNavigation.
    destruct (_keysDown c) as [| k l] eqn:E; [exact E |].
    destruct (navigationLoop_keyboard Math_pow props
                (keyboardDelta t (_lastKeyboardNavigationFrame c)) (k :: l)
                (setLastFrame t c)) as (_ & K & _).
    simpl in *. rewrite K. exact E.
Qed.

Lemma keysDown_has_no_duplicates_witness :
  NoDup (_keysDown
           (_keyDownListener (mkKeyboardEvent false false false false "KeyW") 5
              (_keyDownListener (mkKeyboardEvent false false false false "KeyK") 3
                 sampleComponent))).
Proof.
  apply (keysDown_has_no_duplicates (fun _ _ => 1) sampleProps
           (mkKeyboardEvent false false false false "KeyW") 5
           (_keyDownListener (mkKeyboardEvent false false false false "KeyK") 3
              sampleComponent)).
  vm_compute. repeat constructor. intros [].
Defined.

Lemma CTRL_KEYMAP_in_values (code : string) (k : NavigationKey) :
  CTRL_KEYMAP code = Some k -> In k CTRL_KEYMAP_values.
Proof.
  unfold CTRL_KEYMAP, CTRL_KEYMAP_values.
  destruct (String.eqb code "ArrowUp");
    [| destruct (String.eqb code "ArrowDown")];
    intros H; inversion H; simpl; auto.
Qed.

Lemma keyUpListener_keys (event : KeyboardEvent) (c : Component)
    (k : NavigationKey) :
  In k (_keysDown (_keyUpListener event c)) <->
  In k (_keysDown c) /\
  ~ (ctrlKey event = false /\ In k CTRL_KEYMAP_values) /\
  CTRL_KEYMAP (code event) <> Some k /\
  BARE_KEYMAP (code event) <> Some k.
Proof.
  unfold _keyUpListener. cbn [_keysDown setKeysDown].
  destruct (ctrlKey event);
    cbn [negb fold_left CTRL_KEYMAP_values]; rewrite !In_keys_delete.
  - split.
    + intros ((H1 & H2) & H3). repeat split; try assumption.
      intros [E _]. discriminate.
    + intros (H1 & _ & H2 & H3). repeat split; assumption.
  - split.
    + intros ((((H1 & H2) & H3) & H4) & H5). repeat split; try assumption.
      intros [_ [E | [E | []]]]; subst; [apply H2 | apply H3]; reflexivity.
    + intros (H1 & H2 & H3 & H4). repeat split; try assumption.
      * intros E. injection E as E. apply H2. split; [reflexivity |].
        left. exact E.
      * intros E. injection E as E. apply H2. split; [reflexivity |].
        right. left. exact E.
Qed.

(** X14.  After a key-up event, a key is still down exactly when it was
    down before, is not a key of the released code (in either keymap),
    and, if ctrl is not held during the event, is not a zoom key.  So any
    key released without ctrl stops a zoom in progress, also one started
    with Q, Y, E or U; nothing but the set of keys changes. *)
Theorem keyUp_removes_released_and_zoom_keys :
  forall (event : KeyboardEvent) (c : Component),
    let c' := _keyUpListener event c in
    (forall k,
        In k (_keysDown c') <->
        In k (_keysDown c) /\
        ~ (ctrlKey event = false /\ (k = Nav.zoomIn \/ k = Nav.zoomOut)) /\
        CTRL_KEYMAP (code event) <> Some k /\
        BARE_KEYMAP (code event) <> Some k) /\
    state c' = state c /\
    requestedFrames c' = requestedFrames c /\
    _pendingPreviewSelectionUpdates c' = _pendingPreviewSelectionUpdates c /\
    dispatched c' = dispatched c /\
    _lastKeyboardNavigationFrame c' = _lastKeyboardNavigationFrame c.
Proof.
  intros event c c'. split; [| repeat split].
  intros k. unfold c'. rewrite keyUpListener_keys.
  unfold CTRL_KEYMAP_values; simpl.
  split; intros (H1 & H2 & H3 & H4); repeat split; try assumption;
    intros [E [X | X]]; apply H2; split; try exact E; subst; auto.
  destruct X as [X | []]. subst. auto.
Qed.

(** X15.  One press and one release end the loop: from no key down, a
    bare navigation key pressed without modifiers, a navigation frame,
    and the release of that key leave no key down; the next frame then
    does nothing, and in all two navigation frames were requested. *)
Theorem press_and_release_end_the_loop :
  forall (Math_pow : Q -> Q -> Q) (props : ViewportProps)
         (event : KeyboardEvent) (k : NavigationKey) (now t t' : Q)
         (c : Component),
    _keysDown c = [] ->
    ctrlKey event = false -> shiftKey event = false ->
    altKey event = false -> metaKey event = false ->
    BARE_KEYMAP (code event) = Some k ->
    let c1 := _keyDownListener event now c in
    let c2 := _keyboardNavigation Math_pow props t c1 in
    let c3 := _keyUpListener event c2 in
    _keysDown c1 = [k] /\
    _keysDown c3 = [] /\
    _keyboardNavigation Math_pow props t' c3 = c3 /\
    countFrames KeyboardFrame c3 = (countFrames KeyboardFrame c + 2)%nat.
Proof.
  intros Math_pow props event k now t t' c Hk Hc Hs Ha Hm Hb c1 c2 c3.
  assert (K1 : _keysDown c1 = [k]).
  { unfold c1. rewrite keyDownListener_unfold.
    unfold keyDownNavigationKey. rewrite Hc, Hs, Ha, Hm, Hb, Hk.
    cbn [negb andb]. cbv zeta.
    cbn [_keysDown setKeysDown setLastFrame requestAnimationFrame].
    rewrite Hk. reflexivity. }
  assert (F1 : countFrames KeyboardFrame c1
               = (countFrames KeyboardFrame c + 1)%nat).
  { unfold c1. rewrite keyDownListener_frames. fold c1. rewrite Hk, K1.
    reflexivity. }
  assert (H2 : _keysDown c2 = [k] /\
               countFrames KeyboardFrame c2
               = S (countFrames KeyboardFrame c1)).
  { unfold c2, _keyboardNavigation. rewrite K1.
    destruct (navigationLoop_keyboard Math_pow props
                (keyboardDelta t (_lastKeyboardNavigationFrame c1)) [k]
                (setLastFrame t c1)) as (F & K & _).
    split.
    - simpl in *. rewrite K. exact K1.
    - unfold countFrames in *; simpl in *.
      rewrite filter_app, length_app, F. simpl. lia. }
  destruct H2 as [K2 F2].
  assert (K3 : _keysDown c3 = []).
  { destruct (_keysDown c3) as [| x l] eqn:E; [reflexivity |].
    assert (Hx : In x (_keysDown c3)) by (rewrite E; left; reflexivity).
    unfold c3 in Hx. apply keyUpListener_keys in Hx.
    destruct Hx as (Hx & _ & _ & Hn). rewrite K2 in Hx.
    destruct Hx as [Hx | []]. subst. contradiction. }
  split; [exact K1 |]. split; [exact K3 |]. split.
  - unfold _keyboardNavigation. rewrite K3. reflexivity.
  - unfold countFrames in *. unfold c3 at 1. simpl.
    fold (countFrames KeyboardFrame c2). unfold countFrames. lia.
Qed.

Lemma press_and_release_end_the_loop_witness :
  let event := mkKeyboardEvent false false false false "KeyD" in
  _keysDown
    (_keyUpListener event
       (_keyboardNavigation (fun _ _ => 1) sampleProps 16
          (_keyDownListener event 0 sampleComponent)))
  = [].
Proof.
  destruct (press_and_release_end_the_loop (fun _ _ => 1) sampleProps
              (mkKeyboardEvent false false false false "KeyD") Nav.right
              0 16 32 sampleComponent)
    as (_ & H & _).
  - reflexivity.
  - reflexivity.
  - reflexivity.
  - reflexivity.
  - reflexivity.
  - reflexivity.
  - exact H.
Defined.

(** ** Wheel, scroll hint and drag *)



(** X18.  A wheel event with ctrl or shift held only zooms: it never
    scrolls (the state is untouched) and never shows the scroll hint;
    with horizontal movement disabled it does nothing at all, otherwise it
    queues exactly one zoom around the mouse, whose factor is
    [ZOOM_SPEED] to the power of the normalised delta (the horizontal one
    when the vertical one is 0), three times that exponent with ctrl, and
    it reports the first wheel zoom when the store has not recorded one. *)
Theorem wheel_with_modifier_only_zooms :
  forall (Math_pow : Q -> Q -> Q) (props : ConnectedProps)
         (event : WheelEvent) (ch : Chart),
    wheel_ctrlKey event || wheel_shiftKey event = true ->
    let ch' := _mouseWheelListener Math_pow props event ch in
    let st := state (component ch) in
    let delta :=
      getNormalizedScrollDelta event (containerHeight st)
        (if Qeq_bool (wheel_deltaY event) 0 then deltaX else deltaY) in
    let exponent := delta * (if wheel_ctrlKey event then 3 else 1) in
    state (component ch') = st /\
    timeouts ch' = timeouts ch /\
    zoomScrollId ch' = zoomScrollId ch /\
    (disableHorizontalMovement (viewportProps props) = true -> ch' = ch) /\
    (disableHorizontalMovement (viewportProps props) = false ->
     _pendingPreviewSelectionUpdates (component ch')
     = _pendingPreviewSelectionUpdates (component ch)
         ++ [zoomUpdate (maximumZoom (viewportProps props))
               (mouseCenter (viewportProps props) st (wheel_clientX event))
               (Math_pow ZOOM_SPEED exponent)] /\
     setHasZoomedViaMousewheel_calls ch'
     = if negb (hasZoomedViaMousewheel props)
          && setHasZoomedViaMousewheel_given props
       then S (setHasZoomedViaMousewheel_calls ch)
       else setHasZoomedViaMousewheel_calls ch).
Proof.
  intros Math_pow props event ch Hm ch' st delta exponent.
  unfold ch', _mouseWheelListener. rewrite Hm.
  destruct (disableHorizontalMovement (viewportProps props)) eqn:Hd; simpl.
  - split; [reflexivity |]. split; [reflexivity |]. split; [reflexivity |].
    split; [intros _; reflexivity | discriminate].
  - unfold zoomRangeSelection. rewrite Hd.
    rewrite addBatched_state, addBatched_pending.
    split; [reflexivity |]. split; [reflexivity |]. split; [reflexivity |].
    split; [discriminate | intros _; split; reflexivity].
Qed.

Lemma wheel_with_modifier_only_zooms_witness :
  let event := mkWheelEvent 0 4 0 true false 250 in
  let ch' := _mouseWheelListener (fun _ _ => 1)
               (mkConnectedProps sampleProps false true) event
               (onComponent (fun _ => sampleComponent)
                            (newChart (mkConnectedProps sampleProps false true))) in
  state (component ch') = state sampleComponent /\
  setHasZoomedViaMousewheel_calls ch' = 1%nat.
Proof.
  destruct (wheel_with_modifier_only_zooms (fun _ _ => 1)
              (mkConnectedProps sampleProps false true)
              (mkWheelEvent 0 4 0 true false 250)
              (onComponent (fun _ => sampleComponent)
                           (newChart (mkConnectedProps sampleProps false true))))
    as (S & _ & _ & _ & H).
  - reflexivity.
  - destruct H as [_ C]; [reflexivity |].
    split; [exact S | exact C].
Defined.

Lemma moveViewport_other_fields (props : ViewportProps) (ox oy : Q)
    (c : Component) :
  let st' := state (moveViewport props ox oy c) in
  isScrollHintVisible st' = isScrollHintVisible (state c) /\
  isDragging st' = isDragging (state c) /\
  dragX st' = dragX (state c) /\
  dragY st' = dragY (state c) /\
  containerWidth st' = containerWidth (state c) /\
  horizontalViewport st' = horizontalViewport (state c).
Proof.
  cbv zeta. unfold moveViewport.
  destruct (negb (isSizeSet (state c))); [repeat split |].
  destruct (movedVertical _ _ _ _ _) as [t b].
  destruct (negb (disableHorizontalMovement props));
    rewrite ?addBatched_state;
    destruct (Qneq_bool t (viewportTop (state c))); repeat split.
Qed.

Lemma showScrollingHint_state (props : ConnectedProps) (ch : Chart) :
  let st := state (component ch) in
  let st' := state (component (showScrollingHint props ch)) in
  containerHeight st' = containerHeight st /\
  viewportTop st' = viewportTop st /\
  viewportBottom st' = viewportBottom st /\
  isSizeSet st' = isSizeSet st /\
  setHasZoomedViaMousewheel_calls (showScrollingHint props ch)
  = setHasZoomedViaMousewheel_calls ch /\
  (hasZoomedViaMousewheel props = false -> isScrollHintVisible st' = true).
Proof.
  cbv zeta. unfold showScrollingHint.
  destruct (hasZoomedViaMousewheel props); simpl.
  - repeat split. discriminate.
  - destruct (isScrollHintVisible (state (component ch))) eqn:E; simpl;
      repeat split; intros; try assumption; reflexivity.
Qed.

(** X19.  A wheel event without ctrl or shift scrolls: on a sized
    component whose content is at least as high as the container, it aims
    at the top [viewportTop + delta], where [delta] is the normalised
    vertical delta: the event's [deltaY] in pixel mode, 15 px per line in
    line mode and one container height per page in page mode.  While the
    window it aims at lies inside the content, that is the new top, stored
    with the bottom [top + containerHeight] when it differs from the old
    top; a delta that leaves the top where it is leaves top and bottom
    untouched.  The event never reports a wheel zoom, and it shows the
    scroll hint when horizontal movement is enabled and no wheel zoom was
    recorded. *)
Theorem wheel_without_modifier_scrolls :
  forall (Math_pow : Q -> Q -> Q) (props : ConnectedProps)
         (event : WheelEvent) (ch : Chart),
    let st := state (component ch) in
    let h := containerHeight st in
    let delta := getNormalizedScrollDelta event h deltaY in
    let target := viewportTop st - - delta in
    wheel_ctrlKey event || wheel_shiftKey event = false ->
    isSizeSet st = true ->
    h <= maxViewportHeight (viewportProps props) ->
    0 <= target ->
    target + h <= maxViewportHeight (viewportProps props) ->
    let ch' := _mouseWheelListener Math_pow props event ch in
    let st' := state (component ch') in
    viewportTop st' == viewportTop st + delta /\
    (~ target == viewportTop st ->
     viewportTop st' = target /\ viewportBottom st' = target + h) /\
    (target == viewportTop st ->
     viewportTop st' = viewportTop st /\
     viewportBottom st' = viewportBottom st) /\
    setHasZoomedViaMousewheel_calls ch' = setHasZoomedViaMousewheel_calls ch /\
    (wheel_deltaMode event = DOM_DELTA_PAGE ->
     delta = wheel_deltaY event * h) /\
    (wheel_deltaMode event = DOM_DELTA_LINE ->
     delta = wheel_deltaY event * 15) /\
    (wheel_deltaMode event <> DOM_DELTA_PAGE ->
     wheel_deltaMode event <> DOM_DELTA_LINE ->
     delta = wheel_deltaY event) /\
    (disableHorizontalMovement (viewportProps props) = false ->
     hasZoomedViaMousewheel props = false ->
     isScrollHintVisible st' = true).
Proof.
  intros Math_pow props event ch st h delta target Hm Hs Hh H0 H1 ch' st'.
  unfold st', ch', _mouseWheelListener. rewrite Hm.
  set (ch1 := if negb (disableHorizontalMovement (viewportProps props))
              then showScrollingHint props ch else ch).
  assert (S1 : containerHeight (state (component ch1)) = h /\
               viewportTop (state (component ch1)) = viewportTop st /\
               viewportBottom (state (component ch1)) = viewportBottom st /\
               isSizeSet (state (component ch1)) = isSizeSet st /\
               setHasZoomedViaMousewheel_calls ch1
               = setHasZoomedViaMousewheel_calls ch /\
               (disableHorizontalMovement (viewportProps props) = false ->
                hasZoomedViaMousewheel props = false ->
                isScrollHintVisible (state (component ch1)) = true)).
  { unfold ch1.
    destruct (disableHorizontalMovement (viewportProps props)); simpl.
    - repeat split. discriminate.
    - destruct (showScrollingHint_state props ch) as (A & B & C & D & E & F).
      repeat split; try assumption. intros _. exact F. }
  destruct S1 as (Sh & St & Sb & Ss & Sc & Sv).
  cbv zeta. rewrite Sh. fold delta.
  cbn [onComponent component setHasZoomedViaMousewheel_calls].
  set (c1 := component ch1) in *.
  set (ox := - getNormalizedScrollDelta event h deltaX).
  destruct (movedVertical_outcomes (maxViewportHeight (viewportProps props))
              (startsAtBottom (viewportProps props)) h (viewportTop st)
              (- delta) Hh) as (O & _).
  specialize (O H0 H1). fold target in O.
  assert (M : movedVertical (maxViewportHeight (viewportProps props))
                (startsAtBottom (viewportProps props))
                (containerHeight (state c1)) (viewportTop (state c1))
                (- delta) = (target, target + h))
    by (rewrite Sh, St; exact O).
  destruct (moveViewport_stores (viewportProps props) ox (- delta) c1 _ _
              (eq_trans Ss Hs) M) as (T & Tn & Te).
  rewrite St in Tn, Te.
  split; [rewrite T; unfold target; ring |].
  split; [exact Tn |].
  split; [intros E; rewrite (Te E); split; assumption |].
  split; [exact Sc |].
  split; [| split; [| split]].
  - intros E. unfold delta, getNormalizedScrollDelta. rewrite E.
    reflexivity.
  - intros E. unfold delta, getNormalizedScrollDelta. rewrite E.
    reflexivity.
  - intros E1 E2. unfold delta, getNormalizedScrollDelta.
    apply Nat.eqb_neq in E1, E2. rewrite E1, E2. reflexivity.
  - intros Hd Hz.
    destruct (moveViewport_other_fields (viewportProps props) ox (- delta) c1)
      as (V & _).
    rewrite V. apply Sv; assumption.
Qed.

(** One line down on the sample chart: 15 px. *)
Lemma wheel_without_modifier_scrolls_witness :
  let ch := onComponent (fun _ => sampleComponent)
              (newChart (mkConnectedProps sampleProps false true)) in
  let ch' := _mouseWheelListener (fun _ _ => 1)
               (mkConnectedProps sampleProps false true)
               (mkWheelEvent 0 1 1 false false 250) ch in
  viewportTop (state (component ch')) == 15 /\
  isScrollHintVisible (state (component ch')) = true.
Proof.
  destruct (wheel_without_modifier_scrolls (fun _ _ => 1)
              (mkConnectedProps sampleProps false true)
              (mkWheelEvent 0 1 1 false false 250)
              (onComponent (fun _ => sampleComponent)
                 (newChart (mkConnectedProps sampleProps false true))))
    as (T & _ & _ & _ & _ & _ & _ & V).
  - reflexivity.
  - reflexivity.
  - vm_compute. discriminate.
  - vm_compute. discriminate.
  - vm_compute. discriminate.
  - split; [apply (Qeq_trans _ _ _ T); reflexivity |].
    apply V; reflexivity.
Defined.

(** X20.  The scroll hint is debounced.  The scroll ids of the pending
    timeouts never exceed the counter.  Once a wheel zoom was recorded,
    [showScrollingHint] does nothing.  Otherwise it shows the hint and
    arms one more timeout; every timeout armed before has become stale
    and, when it fires, changes nothing, so the hint stays until the
    timeout of the latest scroll fires and hides it. *)
Theorem scroll_hint_hidden_by_latest_timeout_only :
  forall (props : ConnectedProps) (ch : Chart),
    Forall (fun id => (id <= zoomScrollId ch)%nat) (timeouts ch) ->
    let ch' := showScrollingHint props ch in
    Forall (fun id => (id <= zoomScrollId ch')%nat) (timeouts ch') /\
    (hasZoomedViaMousewheel props = true -> ch' = ch) /\
    (hasZoomedViaMousewheel props = false ->
     isScrollHintVisible (state (component ch')) = true /\
     timeouts ch' = timeouts ch ++ [zoomScrollId ch'] /\
     Forall (fun id => scrollHintTimeout id ch' = ch') (timeouts ch) /\
     isScrollHintVisible
       (state (component (scrollHintTimeout (zoomScrollId ch') ch')))
     = false).
Proof.
  intros props ch Hinv ch'. unfold ch', showScrollingHint.
  destruct (hasZoomedViaMousewheel props); cbv zeta.
  - split; [exact Hinv |]. split; [reflexivity | discriminate].
  - cbn [zoomScrollId timeouts component].
    split; [| split; [discriminate | intros _]].
    + apply Forall_app. split.
      * apply Forall_impl with (2 := Hinv). intros a Ha. lia.
      * constructor; [lia | constructor].
    + split; [| split; [reflexivity | split]].
      * destruct (isScrollHintVisible (state (component ch))) eqn:E;
          simpl; [exact E | reflexivity].
      * apply Forall_impl with (2 := Hinv). intros a Ha.
        unfold scrollHintTimeout. cbn [zoomScrollId].
        assert (X : Nat.eqb a (S (zoomScrollId ch)) = false)
          by (apply Nat.eqb_neq; lia).
        rewrite X. reflexivity.
      * unfold scrollHintTimeout. cbn [zoomScrollId].
        rewrite Nat.eqb_refl. reflexivity.
Qed.

(** Two scrolls in a row on a new chart: the timeout of the first leaves
    the hint, the timeout of the second hides it. *)
Lemma scroll_hint_hidden_by_latest_timeout_only_witness :
  let props := mkConnectedProps sampleProps false true in
  let ch2 := showScrollingHint props (showScrollingHint props (newChart props)) in
  timeouts ch2 = [1%nat; 2%nat] /\
  scrollHintTimeout 1 ch2 = ch2 /\
  isScrollHintVisible (state (component (scrollHintTimeout 2 ch2))) = false.
Proof.
  destruct (scroll_hint_hidden_by_latest_timeout_only
              (mkConnectedProps sampleProps false true)
              (showScrollingHint (mkConnectedProps sampleProps false true)
                 (newChart (mkConnectedProps sampleProps false true))))
    as (_ & _ & H).
  - repeat constructor.
  - destruct H as (_ & T & S & V); [reflexivity |].
    split; [exact T |]. split; [| exact V].
    inversion S as [| x l Hx Hl]. exact Hx.
Defined.

(** X21.  A drag follows the mouse.  After a mouse-up, the first
    mouse-move of the next drag only records the position of the mouse:
    on a sized component whose window lies inside the content, top and
    bottom stay untouched, whatever position an earlier drag left in the
    state.  The next mouse-move aims at the top moved by the distance the
    mouse travelled since, upwards when the mouse goes down; while the
    window it aims at lies inside the content that is the new top, stored
    with the bottom [top + containerHeight] when it differs from the old
    top.  Both moves leave the state dragging, at the position of the
    event. *)
Theorem drag_follows_the_mouse :
  forall (props : ViewportProps) (first second : MouseEvent) (c : Component),
    let st := state c in
    let h := containerHeight st in
    let target := viewportTop st - (clientY second - clientY first) in
    isSizeSet st = true ->
    h <= maxViewportHeight props ->
    0 <= viewportTop st ->
    viewportTop st + h <= maxViewportHeight props ->
    0 <= target ->
    target + h <= maxViewportHeight props ->
    let c1 := _mouseMoveListener props first (_mouseUpListener c) in
    let c2 := _mouseMoveListener props second c1 in
    viewportTop (state c1) = viewportTop st /\
    viewportBottom (state c1) = viewportBottom st /\
    isDragging (state c1) = true /\
    dragX (state c1) = clientX first /\ dragY (state c1) = clientY first /\
    viewportTop (state c2) == target /\
    (~ target == viewportTop st ->
     viewportTop (state c2) = target /\ viewportBottom (state c2) = target + h) /\
    (target == viewportTop st ->
     viewportTop (state c2) = viewportTop st /\
     viewportBottom (state c2) = viewportBottom st) /\
    isDragging (state c2) = true /\
    dragX (state c2) = clientX second /\ dragY (state c2) = clientY second.
Proof.
  intros props e1 e2 c st h target Hs Hh H0 H1 H2 H3 c1 c2.
  set (maxH := maxViewportHeight props) in *.
  (* the first move aims at the top it starts from *)
  set (c0 := setState (setDrag (clientX e1) (clientY e1) true
                               (state (_mouseUpListener c)))
                      (_mouseUpListener c)).
  assert (E1 : c1 = moveViewport props (clientX e1 - clientX e1)
                      (clientY e1 - clientY e1) c0) by reflexivity.
  destruct (movedVertical_outcomes maxH (startsAtBottom props) h
              (viewportTop st) (clientY e1 - clientY e1) Hh) as (O1 & _).
  assert (Z : viewportTop st - (clientY e1 - clientY e1) == viewportTop st)
    by ring.
  assert (M1 : movedVertical maxH (startsAtBottom props) h (viewportTop st)
                 (clientY e1 - clientY e1)
               = (viewportTop st - (clientY e1 - clientY e1),
                  viewportTop st - (clientY e1 - clientY e1) + h))
    by (apply O1; lra).
  destruct (moveViewport_stores props (clientX e1 - clientX e1)
              (clientY e1 - clientY e1) c0 _ _ Hs M1) as (_ & _ & S1).
  specialize (S1 Z). rewrite <- E1 in S1.
  (* the second move aims at the top moved by the distance travelled *)
  set (c1' := setState (setDrag (clientX e2) (clientY e2) true (state c1)) c1).
  assert (E2 : c2 = moveViewport props (clientX e2 - clientX e1)
                      (clientY e2 - clientY e1) c1').
  { unfold c2, c1', _mouseMoveListener. rewrite S1. reflexivity. }
  assert (Hs1 : isSizeSet (state c1') = true)
    by (unfold c1'; simpl; rewrite S1; exact Hs).
  destruct (movedVertical_outcomes maxH (startsAtBottom props) h
              (viewportTop st) (clientY e2 - clientY e1) Hh) as (O2 & _).
  specialize (O2 H2 H3). fold target in O2.
  assert (M2 : movedVertical maxH (startsAtBottom props)
                 (containerHeight (state c1')) (viewportTop (state c1'))
                 (clientY e2 - clientY e1) = (target, target + h))
    by (unfold c1'; simpl; rewrite S1; exact O2).
  destruct (moveViewport_stores props (clientX e2 - clientX e1)
              (clientY e2 - clientY e1) c1' _ _ Hs1 M2) as (T2 & N2 & U2).
  destruct (moveViewport_other_fields props (clientX e2 - clientX e1)
              (clientY e2 - clientY e1) c1') as (_ & D2 & X2 & Y2 & _).
  rewrite <- E2 in T2, N2, U2, D2, X2, Y2.
  assert (Tc : viewportTop (state c1') = viewportTop st)
    by (unfold c1'; simpl; rewrite S1; reflexivity).
  assert (Bc : viewportBottom (state c1') = viewportBottom st)
    by (unfold c1'; simpl; rewrite S1; reflexivity).
  rewrite Tc in N2, U2.
  rewrite S1.
  split; [reflexivity |]. split; [reflexivity |]. split; [reflexivity |].
  split; [reflexivity |]. split; [reflexivity |].
  split; [exact T2 |]. split; [exact N2 |].
  split; [intros E; rewrite (U2 E); split; assumption |].
  split; [exact D2 |]. split; [exact X2 | exact Y2].
Qed.

(** On the sample chart scrolled to 30..80, a drag of 10 px downwards. *)
Lemma drag_follows_the_mouse_witness :
  let c := moveViewport sampleProps 0 (-30) sampleComponent in
  let c2 := _mouseMoveListener sampleProps (mkMouseEvent 400 110)
              (_mouseMoveListener sampleProps (mkMouseEvent 400 100)
                 (_mouseUpListener c)) in
  viewportTop (state c2) == 20.
Proof.
  destruct (drag_follows_the_mouse sampleProps (mkMouseEvent 400 100)
              (mkMouseEvent 400 110)
              (moveViewport sampleProps 0 (-30) sampleComponent))
    as (_ & _ & _ & _ & _ & T & _).
  - reflexivity.
  - vm_compute. discriminate.
  - vm_compute. discriminate.
  - vm_compute. discriminate.
  - vm_compute. discriminate.
  - vm_compute. discriminate.
  - apply (Qeq_trans _ _ _ T). reflexivity.
Defined.

(** ** More on pan, zoom limits and the first measure *)

(** X22.  The selection a pan returns, in the expressions of the code.
    With [u = (right - left) * offsetX / containerWidth], a pan of a
    viewport narrower than 1 returns the selection of the bounds
    [(left - u, right - u)] while [0 <= left - u] and [right - u <= 1], of
    [(0, right - left)] when [left - u < 0], and of
    [(1 - (right - left), 1)] when [0 <= left - u] and [1 < right - u]:
    a drag to the right moves the window to the left. *)
Theorem pan_shifts_by_unit_offset :
  forall (props : ViewportProps) (timeRange : StartEndRange)
         (containerWidth offsetX : Q) (hv : HorizontalViewport),
    let length := viewportRight hv - viewportLeft hv in
    let u := length * offsetX / containerWidth in
    let sel := moveUpdate timeRange containerWidth offsetX props hv in
    length < 1 ->
    (0 <= viewportLeft hv - u -> viewportRight hv - u <= 1 ->
     sel = selectionOfViewport timeRange
             (viewportLeft hv - u) (viewportRight hv - u)) /\
    (viewportLeft hv - u < 0 ->
     sel = selectionOfViewport timeRange 0 length) /\
    (0 <= viewportLeft hv - u -> 1 < viewportRight hv - u ->
     sel = selectionOfViewport timeRange (1 - length) 1).
Proof.
  intros props tr cw ox hv len u sel Hlen.
  assert (E0 : Qle_bool 1 len = false) by (apply Qle_bool_false; exact Hlen).
  unfold sel, moveUpdate, pannedViewport. fold len. fold u. rewrite E0.
  split; [| split].
  - intros H0 H1.
    assert (E1 : Qlt_bool (viewportLeft hv - u) 0 = false)
      by (apply Qlt_bool_false; exact H0).
    assert (E2 : Qlt_bool 1 (viewportRight hv - u) = false)
      by (apply Qlt_bool_false; exact H1).
    rewrite E1, E2. reflexivity.
  - intros H0.
    assert (E1 : Qlt_bool (viewportLeft hv - u) 0 = true)
      by (apply Qlt_bool_iff; exact H0).
    assert (E2 : Qlt_bool 1 len = false)
      by (apply Qlt_bool_false; lra).
    rewrite E1, E2. reflexivity.
  - intros H0 H1.
    assert (E1 : Qlt_bool (viewportLeft hv - u) 0 = false)
      by (apply Qlt_bool_false; exact H0).
    assert (E2 : Qlt_bool 1 (viewportRight hv - u) = true)
      by (apply Qlt_bool_iff; exact H1).
    rewrite E1, E2. reflexivity.
Qed.

(** A drag by a tenth of the container moves [[0.25, 0.75]] by 0.05. *)
Lemma pan_shifts_by_unit_offset_witness :
  let u := ((3 # 4) - (1 # 4)) * 100 / 1000 in
  moveUpdate (mkRange 0 10) 1000 100 sampleProps (mkHV (1 # 4) (3 # 4))
  = selectionOfViewport (mkRange 0 10) ((1 # 4) - u) ((3 # 4) - u).
Proof.
  destruct (pan_shifts_by_unit_offset sampleProps (mkRange 0 10) 1000 100
              (mkHV (1 # 4) (3 # 4))) as (H & _).
  - vm_compute. reflexivity.
  - apply H; vm_compute; discriminate.
Defined.

(** X23.  The zoom limits saturate.  For a window that is exactly
    [maximumZoom <= 1] long and fits the clamps of the zoom
    ([0 <= left <= 1 - length] and [length <= right <= 1]), a zoom whose
    target length [length * zoomFactor] is at most [maximumZoom] computes
    the bounds it was given.  For the whole range [[0, 1]], a zoom whose
    target length is at least 1 computes [[0, 1]] again and returns no
    selection. *)
Theorem zoom_at_a_limit_is_identity :
  forall (props : ViewportProps) (maximumZoom center zoomFactor : Q)
         (hv : HorizontalViewport),
    let length := viewportRight hv - viewportLeft hv in
    let target := length * zoomFactor in
    maximumZoom <= 1 ->
    (length == maximumZoom -> target <= maximumZoom ->
     0 <= viewportLeft hv -> viewportLeft hv <= 1 - length ->
     length <= viewportRight hv -> viewportRight hv <= 1 ->
     hv_eq (zoomedViewport maximumZoom center zoomFactor hv) hv) /\
    (viewportLeft hv == 0 -> viewportRight hv == 1 -> 1 <= target ->
     hv_eq (zoomedViewport maximumZoom center zoomFactor hv) hv /\
     hasSelection (zoomUpdate maximumZoom center zoomFactor props hv) = false).
Proof.
  intros props mz center zf hv len target Hmz.
  split.
  - intros El Ht H0 H1 H2 H3.
    apply zoomedViewport_fixed; try assumption.
    change (viewportLength hv) with len. fold target.
    destruct (clamp_cases mz 1 target) as [C | [C | [C | C]]]; lra.
  - intros E0 E1 Ht.
    assert (El : len == 1) by (unfold len; lra).
    assert (Z : hv_eq (zoomedViewport mz center zf hv) hv).
    { apply zoomedViewport_fixed;
        change (viewportLength hv) with len; try lra.
      fold target.
      destruct (clamp_cases mz 1 target) as [C | [C | [C | C]]]; lra. }
    split; [exact Z |].
    apply zoomUpdate_none_iff. destruct Z as [Z1 Z2]. split; lra.
Qed.

(** At the zoom limit 1/100, zooming in again by 1/2 leaves the window. *)
Lemma zoom_at_a_limit_is_identity_witness :
  hv_eq (zoomedViewport (1 # 100) (1 # 2) (1 # 2) (mkHV (1 # 2) (51 # 100)))
        (mkHV (1 # 2) (51 # 100)).
Proof.
  destruct (zoom_at_a_limit_is_identity sampleProps (1 # 100) (1 # 2) (1 # 2)
              (mkHV (1 # 2) (51 # 100))) as (H & _).
  - vm_compute. discriminate.
  - apply H; vm_compute; (reflexivity || discriminate).
Defined.

(** X24.  The first measure anchors the window: a new component whose
    container measures anything but 0 by 0 gets its size set, and then
    shows the last [containerHeight] pixels of the content if the chart
    starts at the bottom, and the first ones otherwise. *)
Theorem first_measure_anchors_the_window :
  forall (props : ViewportProps) (rect : Rect),
    ~ (rect_width rect == 0 /\ rect_height rect == 0) ->
    let st := state (_setSize props rect (newComponent props)) in
    isSizeSet st = true /\
    containerWidth st = rect_width rect /\
    containerHeight st = rect_height rect /\
    (startsAtBottom props = true ->
     viewportBottom st = maxViewportHeight props /\
     viewportTop st = maxViewportHeight props - rect_height rect) /\
    (startsAtBottom props = false ->
     viewportTop st = 0 /\ viewportBottom st = 0 + rect_height rect).
Proof.
  intros props rect Hne st. unfold st, _setSize; simpl.
  destruct (Qneq_bool 0 (rect_width rect)) eqn:Ew;
    destruct (Qneq_bool 0 (rect_height rect)) eqn:Eh; simpl;
    try (destruct (startsAtBottom props);
         repeat split; intros; try discriminate; reflexivity).
  apply Qneq_bool_false in Ew, Eh. exfalso. apply Hne.
  split; symmetry; assumption.
Qed.

Lemma first_measure_anchors_the_window_witness :
  viewportTop (state (tallComponent true)) = 100 - 200 /\
  viewportBottom (state (tallComponent true)) = 100.
Proof.
  destruct (first_measure_anchors_the_window (tallProps true)
              (mkRect 1000 200 0)) as (_ & _ & _ & H & _).
  - intros [H _]. vm_compute in H. discriminate.
  - destruct H as [Hb Ht]; [reflexivity |].
    split; [exact Ht | exact Hb].
Defined.

(** X25.  A change of chart resets the component: when
    [viewportNeedsUpdate] says so, [UNSAFE_componentWillReceiveProps]
    puts the default state of the new props, with the size not set, and
    requests a measure in the next frame; until that frame has run, every
    move request is ignored.  The queue of updates and the pressed keys
    are not reset. *)
Theorem chart_change_resets_until_measured :
  forall (changed layoutChanged : bool) (newProps : ViewportProps)
         (offsetX offsetY : Q) (c : Component),
    let c' := UNSAFE_componentWillReceiveProps true changed layoutChanged
                newProps c in
    state c' = getDefaultState newProps /\
    isSizeSet (state c') = false /\
    requestedFrames c' = requestedFrames c ++ [SetSizeFrame] /\
    moveViewport newProps offsetX offsetY c' = c' /\
    _pendingPreviewSelectionUpdates c' = _pendingPreviewSelectionUpdates c /\
    _keysDown c' = _keysDown c.
Proof.
  intros changed layoutChanged newProps ox oy c c'.
  unfold c', UNSAFE_componentWillReceiveProps.
  repeat split.
Qed.

(** ** Where the claims as stated fail *)

Section AsStated.

Import Stdlib.Floats.PrimFloat.

(** C1 as stated fails on the code in two ways.  A container that
    measures 0 by 50 has its size set with width 0, and a pan with
    [offsetX = 0] of the window [[0.25, 0.75]] then divides 0 by 0: both
    bounds of the viewport read back are [NaN], neither [0 <= left] nor
    [right <= 1] holds; so it is under a time range with [start = end].
    And in binary64 the width is kept only up to rounding: the window
    [[0, 0.3]] panned by -100 px in a container of 1000 px is read back
    narrower than it was. *)
Lemma moveViewport_pan_fails_in_binary64 :
  let sized :=
    state (_setSize sampleProps (mkRect 0 50 0) (newComponent sampleProps)) in
  let undefined :=
    Double.getHorizontalViewport
      (Double.moveUpdate Double.range_0_10 0 0 Double.window_025_075)
      Double.range_0_10 in
  let norange :=
    Double.getHorizontalViewport
      (Double.moveUpdate Double.range_5_5 1000 100 Double.window_025_075)
      Double.range_5_5 in
  let before := Double.window_0_03 in
  let after :=
    Double.getHorizontalViewport
      (Double.moveUpdate Double.range_0_10 1000 (-100) before)
      Double.range_0_10 in
  isSizeSet sized = true /\ containerWidth sized == 0 /\
  PrimFloat.is_nan (Double.viewportLeft undefined) = true /\
  PrimFloat.leb 0 (Double.viewportLeft undefined) = false /\
  PrimFloat.leb (Double.viewportRight undefined) 1 = false /\
  PrimFloat.leb 0 (Double.viewportLeft norange) = false /\
  PrimFloat.ltb
    (PrimFloat.sub (Double.viewportRight before) (Double.viewportLeft before))
    1 = true /\
  PrimFloat.eqb
    (PrimFloat.sub (Double.viewportRight after) (Double.viewportLeft after))
    (PrimFloat.sub (Double.viewportRight before) (Double.viewportLeft before))
  = false.
Proof.
  repeat split; vm_compute; reflexivity.
Qed.

(** C2 as stated fails on the code by rounding: in binary64 the window
    [[0, 0.02]] zoomed by 0.5 around its middle with [maximumZoom = 0.01]
    becomes [[0.005, 0.015]], whose width, computed as the code computes
    widths, is below [maximumZoom].  Under a time range with [start = end]
    the viewport read back has no width at all ([NaN]). *)
Lemma zoomRangeSelection_width_below_limit_in_binary64 :
  let before := Double.window_0_002 in
  let new :=
    Double.zoomedViewport Double.zoomLimit Double.half Double.half before in
  let after :=
    Double.getHorizontalViewport
      (Double.zoomUpdate Double.zoomLimit Double.half Double.half
                         Double.range_0_10 before)
      Double.range_0_10 in
  let norange :=
    Double.getHorizontalViewport
      (Double.zoomUpdate Double.zoomLimit Double.half Double.half
                         Double.range_5_5 Double.window_025_075)
      Double.range_5_5 in
  PrimFloat.leb Double.zoomLimit
    (PrimFloat.sub (Double.viewportRight norange) (Double.viewportLeft norange))
  = false /\
  PrimFloat.ltb 0 Double.zoomLimit = true /\
  PrimFloat.leb Double.zoomLimit 1 = true /\
  PrimFloat.leb 0 (Double.viewportLeft before) = true /\
  PrimFloat.ltb (Double.viewportLeft before) (Double.viewportRight before)
  = true /\
  PrimFloat.leb (Double.viewportRight before) 1 = true /\
  PrimFloat.ltb
    (PrimFloat.sub (Double.viewportRight new) (Double.viewportLeft new))
    Double.zoomLimit = true /\
  PrimFloat.ltb
    (PrimFloat.sub (Double.viewportRight after) (Double.viewportLeft after))
    Double.zoomLimit = true.
Proof.
  repeat split; vm_compute; reflexivity.
Qed.

(** C4 as stated fails outside the conditions of the theorem.  The
    viewport computed from an empty selection has [left = right], and
    from a selection that ends after the time range [right > 1].  A pan
    requested under the range [[0, 10]] and flushed under [[0, 5]] reads
    back [right = 3/2].  With [maximumZoom = 2] a zoom ends at [[0, 2]],
    and with [maximumZoom = 0] a zoom by factor 0 ends with
    [left = right].  In binary64, a time range with [start = end] and a
    container of width 0 make the bounds [NaN], and after [_setSize] on a
    chart that starts at the bottom (bottom 1000, height 123.4)
    [bottom - top] is not the height. *)
Lemma viewport_invariant_fails_outside_conditions :
  let empty := getHorizontalViewport (Selection false 5 5) (mkRange 0 10) in
  let beyond := getHorizontalViewport (Selection false 5 15) (mkRange 0 10) in
  let window := mkHV (1 # 4) (3 # 4) in
  let rerange :=
    getHorizontalViewport
      (moveUpdate (mkRange 0 10) 1000 0 sampleProps window) (mkRange 0 5) in
  let wide := zoomedViewport 2 (1 # 2) 1 window in
  let flat := zoomedViewport 0 (1 # 2) 0 window in
  let norange :=
    Double.getHorizontalViewport
      (Double.moveUpdate Double.range_5_5 1000 100 Double.window_025_075)
      Double.range_5_5 in
  let nowidth :=
    Double.getHorizontalViewport
      (Double.moveUpdate Double.range_0_10 0 0 Double.window_025_075)
      Double.range_0_10 in
  let measured := Double.setSizeVertical true 0 1000 Double.measuredHeight in
  valid_horizontal window /\
  viewportLeft empty == viewportRight empty /\ ~ valid_horizontal empty /\
  viewportRight beyond == 3 # 2 /\ ~ valid_horizontal beyond /\
  viewportRight rerange == 3 # 2 /\ ~ valid_horizontal rerange /\
  viewportRight wide == 2 /\ ~ valid_horizontal wide /\
  viewportLeft flat == viewportRight flat /\ ~ valid_horizontal flat /\
  PrimFloat.leb 0 (Double.viewportLeft norange) = false /\
  PrimFloat.leb 0 (Double.viewportLeft nowidth) = false /\
  PrimFloat.eqb (PrimFloat.sub (snd measured) (fst measured))
                Double.measuredHeight = false.
Proof.
  repeat split; try (vm_compute; reflexivity); try (vm_compute; discriminate).
  - intros (_ & H & _). vm_compute in H. discriminate.
  - intros (_ & _ & H). vm_compute in H. apply H. reflexivity.
  - intros (_ & _ & H). vm_compute in H. apply H. reflexivity.
  - intros (_ & _ & H). vm_compute in H. apply H. reflexivity.
  - intros (_ & H & _). vm_compute in H. discriminate.
Qed.


End AsStated.
